(** * STIMPL: the interpreter state and the evaluator of [stimpl/runtime.py]

    A shallow embedding of [State], [EmptyState] and [evaluate], followed by
    the properties of the environment chain and of the evaluator.

    Python values are a tagged union [pyvalue]; the three interpreter
    exceptions are constructors of [abort]; the text written by [print] is an
    explicit output trace threaded through the evaluator; recursion and the
    [while] loop are bounded by a fuel argument, and [evaluates] is the
    fuel-independent big-step reading of [evaluate]. *)

From Stdlib Require Import ZArith List String Bool Lia PrimFloat.
Import ListNotations.

Set Warnings "-register-all".

Local Open Scope string_scope.
Local Open Scope Z_scope.

(** ** Values and types *)

(** The Python objects that travel as values: [None], [int], [float], [str]
    and [bool]. *)
Inductive pyvalue : Type :=
| PyNone
| PyInt (z : Z)
| PyFloat (f : float)
| PyStr (s : string)
| PyBool (b : bool).

(** Modelled from the spec: the module [stimpl.types] is not part of the
    sources at hand.  Its classes are a closed enumeration of tags and
    "equality between types is nominal (tag equality only)". *)
Inductive Type_ : Type :=
| Unit
| Integer
| FloatingPoint
| String
| Boolean.

Definition Type_eqb (a b : Type_) : bool :=
  match a, b with
  | Unit, Unit | Integer, Integer | FloatingPoint, FloatingPoint
  | String, String | Boolean, Boolean => true
  | _, _ => false
  end.

(** Python truthiness, as used by [if result] and [while result]. *)
Definition truthy (v : pyvalue) : bool :=
  match v with
  | PyNone => false
  | PyInt z => negb (z =? 0)
  | PyFloat f => negb (PrimFloat.eqb f 0%float)
  | PyStr s => negb (String.eqb s "")
  | PyBool b => b
  end.

(** [v == 0]: [False], [0], [0.0] and [-0.0] compare equal to the integer
    zero; [None] and strings never do. *)
Definition py_eq_zero (v : pyvalue) : bool :=
  match v with
  | PyNone => false
  | PyInt z => z =? 0
  | PyFloat f => PrimFloat.eqb f 0%float
  | PyStr _ => false
  | PyBool b => negb b
  end.

(** The host operators on two operands of one class.  [None] stands for an
    application to operands outside these classes; the evaluator reaches an
    operator only after it has matched the common tag, so that a state whose
    values carry their own tag never leads there ([evaluate_tag_sound]). *)
Definition py_add (a b : pyvalue) : option pyvalue :=
  match a, b with
  | PyInt x, PyInt y => Some (PyInt (x + y))
  | PyFloat x, PyFloat y => Some (PyFloat (x + y)%float)
  | PyStr x, PyStr y => Some (PyStr (String.append x y))
  | _, _ => None
  end.

Definition py_sub (a b : pyvalue) : option pyvalue :=
  match a, b with
  | PyInt x, PyInt y => Some (PyInt (x - y))
  | PyFloat x, PyFloat y => Some (PyFloat (x - y)%float)
  | _, _ => None
  end.

Definition py_mul (a b : pyvalue) : option pyvalue :=
  match a, b with
  | PyInt x, PyInt y => Some (PyInt (x * y))
  | PyFloat x, PyFloat y => Some (PyFloat (x * y)%float)
  | _, _ => None
  end.

(** [a // b] on integers; the divisor is not zero where it is used. *)
Definition py_floordiv (a b : pyvalue) : option pyvalue :=
  match a, b with
  | PyInt x, PyInt y => Some (PyInt (x / y))
  | _, _ => None
  end.

(** [a / b] on floats; the divisor is not zero where it is used. *)
Definition py_truediv (a b : pyvalue) : option pyvalue :=
  match a, b with
  | PyFloat x, PyFloat y => Some (PyFloat (x / y)%float)
  | _, _ => None
  end.

Definition py_lt (a b : pyvalue) : option pyvalue :=
  match a, b with
  | PyInt x, PyInt y => Some (PyBool (x <? y))
  | PyBool x, PyBool y => Some (PyBool (negb x && y))
  | PyStr x, PyStr y => Some (PyBool (String.ltb x y))
  | PyFloat x, PyFloat y => Some (PyBool (PrimFloat.ltb x y))
  | _, _ => None
  end.

Definition py_le (a b : pyvalue) : option pyvalue :=
  match a, b with
  | PyInt x, PyInt y => Some (PyBool (x <=? y))
  | PyBool x, PyBool y => Some (PyBool (implb x y))
  | PyStr x, PyStr y => Some (PyBool (String.leb x y))
  | PyFloat x, PyFloat y => Some (PyBool (PrimFloat.leb x y))
  | _, _ => None
  end.

Definition py_gt (a b : pyvalue) : option pyvalue := py_lt b a.

Definition py_ge (a b : pyvalue) : option pyvalue := py_le b a.

Definition py_eq (a b : pyvalue) : option pyvalue :=
  match a, b with
  | PyInt x, PyInt y => Some (PyBool (x =? y))
  | PyBool x, PyBool y => Some (PyBool (Bool.eqb x y))
  | PyStr x, PyStr y => Some (PyBool (String.eqb x y))
  | PyFloat x, PyFloat y => Some (PyBool (PrimFloat.eqb x y))
  | _, _ => None
  end.

Definition py_ne (a b : pyvalue) : option pyvalue :=
  match py_eq a b with
  | Some (PyBool r) => Some (PyBool (negb r))
  | _ => None
  end.

(** [a and b] and [a or b] return one of their operands; [not a] is a
    [bool]. *)
Definition py_and (a b : pyvalue) : pyvalue := if truthy a then b else a.

Definition py_or (a b : pyvalue) : pyvalue := if truthy a then a else b.

Definition py_not (a : pyvalue) : pyvalue := PyBool (negb (truthy a)).

(** ** Interpreter state *)

(** [State(variable_name, variable_value, variable_type, next_state)] and
    its terminal subclass [EmptyState()]. *)
Inductive State : Type :=
| EmptyState
| mkState (variable_name : string) (value : pyvalue * Type_) (next_state : State).

Definition set_value (self : State) (variable_name : string)
  (variable_value : pyvalue) (variable_type : Type_) : State :=
  mkState variable_name (variable_value, variable_type) self.

Fixpoint get_value (self : State) (variable_name : string) : option (pyvalue * Type_) :=
  match self with
  | EmptyState => None
  | mkState name value next_state =>
      if String.eqb variable_name name then Some value
      else get_value next_state variable_name
  end.

(** ** Expressions *)

(** Modelled from the spec: the module [stimpl.expression] is not part of the
    sources at hand.  The node classes and their fields are those that
    [evaluate] matches; the literals hold an integer, a float, a string or a
    boolean, as the data model says.  An [Assign] node holds a [Variable]
    node of which only [variable_name] is read; [Variable], [left], [right],
    [true] and [false] take a trailing underscore. *)
Inductive Expr : Type :=
| Ren
| IntLiteral (literal : Z)
| FloatingPointLiteral (literal : float)
| StringLiteral (literal : string)
| BooleanLiteral (literal : bool)
| Print (to_print : Expr)
| Sequence (exprs : list Expr)
| Program (exprs : list Expr)
| Variable_ (variable_name : string)
| Assign (variable : string) (value : Expr)
| Add (left_ right_ : Expr)
| Subtract (left_ right_ : Expr)
| Multiply (left_ right_ : Expr)
| Divide (left_ right_ : Expr)
| And (left_ right_ : Expr)
| Or (left_ right_ : Expr)
| Not (expr : Expr)
| If (condition true_ false_ : Expr)
| Lt (left_ right_ : Expr)
| Lte (left_ right_ : Expr)
| Gt (left_ right_ : Expr)
| Gte (left_ right_ : Expr)
| Eq (left_ right_ : Expr)
| Ne (left_ right_ : Expr)
| While (condition body : Expr).

(** ** Outcomes and output *)

(** Modelled from the spec: the module [stimpl.errors] is not part of the
    sources at hand; its three exception classes are the three error kinds.
    An evaluation ends, other than with a result, with one of them, with a
    host operator applied outside its class ([HostMismatch]), or with the
    exhaustion of the fuel of the model. *)
Inductive abort : Type :=
| InterpSyntaxError
| InterpTypeError
| InterpMathError
| HostMismatch
| OutOfFuel.

Inductive outcome (A : Type) : Type :=
| Ok (a : A)
| Raise (e : abort).

Arguments Ok {A} a.
Arguments Raise {A} e.

(** One call of [print]: the literal text given, or the default textual form
    of a value (f-string formatting). *)
Inductive line : Type :=
| Text (s : string)
| Formatted (v : pyvalue).

(** Computations that write to standard output and may raise. *)
Definition M (A : Type) : Type := list line -> outcome A * list line.

Definition ret {A : Type} (a : A) : M A := fun out => (Ok a, out).

Definition raise {A : Type} (e : abort) : M A := fun out => (Raise e, out).

Definition bind {A B : Type} (m : M A) (k : A -> M B) : M B :=
  fun out =>
    match m out with
    | (Ok a, out') => k a out'
    | (Raise e, out') => (Raise e, out')
    end.

Definition print (l : line) : M unit := fun out => (Ok tt, (out ++ [l])%list).

Definition host {A : Type} (o : option A) : M A :=
  match o with
  | Some a => ret a
  | None => raise HostMismatch
  end.

Notation "x <- m ;; k" := (bind m (fun x => k))
  (at level 61, m at next level, right associativity).
Notation "' p <- m ;; k" := (bind m (fun x => match x with p => k end))
  (at level 61, p pattern, m at next level, right associativity).

Definition Result : Type := pyvalue * Type_ * State.

(** ** The evaluator *)

Section Loops.

(** The recursive calls of [evaluate], at the fuel left for them. *)
Variable ev : Expr -> State -> M Result.

(** [for expr in exprs: expr_value, expr_type, new_state = evaluate(expr, new_state)],
    from the triple held before the loop. *)
Fixpoint for_exprs (exprs : list Expr) (acc : Result) : M Result :=
  match exprs with
  | [] => ret acc
  | expr :: rest =>
      let '(_, _, new_state) := acc in
      acc' <- ev expr new_state ;;
      for_exprs rest acc'
  end.

(** [while result: ...] of the [While] case, entered with the triple
    [(result, cond_type, new_state)] of the first evaluation of the condition;
    [n] bounds the number of iterations. *)
Fixpoint while_loop (n : nat) (condition body : Expr)
  (result : pyvalue) (cond_type : Type_) (new_state : State) : M Result :=
  if truthy result then
    match n with
    | O => raise OutOfFuel
    | S n' =>
        '(_, _, new_state) <- ev body new_state ;;
        '(cond_result, cond_type, new_state) <- ev condition new_state ;;
        match cond_type with
        | Boolean => while_loop n' condition body cond_result cond_type new_state
        | _ => raise InterpTypeError
        end
    end
  else ret (result, cond_type, new_state).

End Loops.

Fixpoint evaluate (fuel : nat) (expression : Expr) (state : State) : M Result :=
  match fuel with
  | O => raise OutOfFuel
  | S fuel' =>
      let evaluate := evaluate fuel' in
      match expression with
      | Ren => ret (PyNone, Unit, state)
      | IntLiteral l => ret (PyInt l, Integer, state)
      | FloatingPointLiteral l => ret (PyFloat l, FloatingPoint, state)
      | StringLiteral l => ret (PyStr l, String, state)
      | BooleanLiteral l => ret (PyBool l, Boolean, state)
      | Print to_print =>
          '(printable_value, printable_type, new_state) <- evaluate to_print state ;;
          _ <- match printable_type with
               | Unit => print (Text "Unit")
               | _ => print (Formatted printable_value)
               end ;;
          ret (printable_value, printable_type, new_state)
      | Sequence exprs | Program exprs =>
          acc <- evaluate Ren state ;;
          for_exprs evaluate exprs acc
      | Variable_ variable_name =>
          match get_value state variable_name with
          | None => raise InterpSyntaxError
          | Some (variable_value, variable_type) =>
              ret (variable_value, variable_type, state)
          end
      | Assign variable value =>
          '(value_result, value_type, new_state) <- evaluate value state ;;
          let variable_type :=
            match get_value new_state variable with
            | Some (_, variable_type) => Some variable_type
            | None => None
            end in
          match variable_type with
          | Some variable_type =>
              if negb (Type_eqb value_type variable_type)
              then raise InterpTypeError
              else ret (value_result, value_type,
                        set_value new_state variable value_result value_type)
          | None =>
              ret (value_result, value_type,
                   set_value new_state variable value_result value_type)
          end
      | Add left_ right_ =>
          '(left_result, left_type, new_state) <- evaluate left_ state ;;
          '(right_result, right_type, new_state) <- evaluate right_ new_state ;;
          if negb (Type_eqb left_type right_type) then raise InterpTypeError
          else
            match left_type with
            | Integer | String | FloatingPoint =>
                result <- host (py_add left_result right_result) ;;
                ret (result, left_type, new_state)
            | _ => raise InterpTypeError
            end
      | Subtract left_ right_ =>
          '(left_result, left_type, new_state) <- evaluate left_ state ;;
          '(right_result, right_type, new_state) <- evaluate right_ new_state ;;
          if negb (Type_eqb left_type right_type) then raise InterpTypeError
          else
            match left_type with
            | Integer | FloatingPoint =>
                result <- host (py_sub left_result right_result) ;;
                ret (result, left_type, new_state)
            | _ => raise InterpTypeError
            end
      | Multiply left_ right_ =>
          '(left_result, left_type, new_state) <- evaluate left_ state ;;
          '(right_result, right_type, new_state) <- evaluate right_ new_state ;;
          if negb (Type_eqb left_type right_type) then raise InterpTypeError
          else
            match left_type with
            | Integer | FloatingPoint =>
                result <- host (py_mul left_result right_result) ;;
                ret (result, left_type, new_state)
            | _ => raise InterpTypeError
            end
      | Divide left_ right_ =>
          '(left_result, left_type, new_state) <- evaluate left_ state ;;
          '(right_result, right_type, new_state) <- evaluate right_ new_state ;;
          if negb (Type_eqb left_type right_type) then raise InterpTypeError
          else if py_eq_zero right_result then raise InterpMathError
          else
            match left_type with
            | Integer =>
                result <- host (py_floordiv left_result right_result) ;;
                ret (result, left_type, new_state)
            | FloatingPoint =>
                result <- host (py_truediv left_result right_result) ;;
                ret (result, left_type, new_state)
            | _ => raise InterpTypeError
            end
      | And left_ right_ =>
          '(left_value, left_type, new_state) <- evaluate left_ state ;;
          '(right_value, right_type, new_state) <- evaluate right_ new_state ;;
          if negb (Type_eqb left_type right_type) then raise InterpTypeError
          else
            match left_type with
            | Boolean => ret (py_and left_value right_value, left_type, new_state)
            | _ => raise InterpTypeError
            end
      | Or left_ right_ =>
          '(left_value, left_type, new_state) <- evaluate left_ state ;;
          '(right_value, right_type, new_state) <- evaluate right_ new_state ;;
          if negb (Type_eqb left_type right_type) then raise InterpTypeError
          else
            match left_type with
            | Boolean => ret (py_or left_value right_value, left_type, new_state)
            | _ => raise InterpTypeError
            end
      | Not expr =>
          '(expr_value, expr_type, new_state) <- evaluate expr state ;;
          match expr_type with
          | Boolean => ret (py_not expr_value, expr_type, new_state)
          | _ => raise InterpTypeError
          end
      | If condition true_ false_ =>
          '(cond_result, cond_type, new_state) <- evaluate condition state ;;
          match cond_type with
          | Boolean =>
              if truthy cond_result then evaluate true_ new_state
              else evaluate false_ new_state
          | _ => raise InterpTypeError
          end
      | Lt left_ right_ =>
          '(left_value, left_type, new_state) <- evaluate left_ state ;;
          '(right_value, right_type, new_state) <- evaluate right_ new_state ;;
          if negb (Type_eqb left_type right_type) then raise InterpTypeError
          else
            match left_type with
            | Integer | Boolean | String | FloatingPoint =>
                result <- host (py_lt left_value right_value) ;;
                ret (result, Boolean, new_state)
            | Unit => ret (PyBool false, Boolean, new_state)
            end
      | Lte left_ right_ =>
          '(left_value, left_type, new_state) <- evaluate left_ state ;;
          '(right_value, right_type, new_state) <- evaluate right_ new_state ;;
          if negb (Type_eqb left_type right_type) then raise InterpTypeError
          else
            match left_type with
            | Integer | Boolean | String | FloatingPoint =>
                result <- host (py_le left_value right_value) ;;
                ret (result, Boolean, new_state)
            | Unit => ret (PyBool true, Boolean, new_state)
            end
      | Gt left_ right_ =>
          '(left_value, left_type, new_state) <- evaluate left_ state ;;
          '(right_value, right_type, new_state) <- evaluate right_ new_state ;;
          if negb (Type_eqb left_type right_type) then raise InterpTypeError
          else
            match left_type with
            | Integer | Boolean | String | FloatingPoint =>
                result <- host (py_gt left_value right_value) ;;
                ret (result, Boolean, new_state)
            | Unit => ret (PyBool false, Boolean, new_state)
            end
      | Gte left_ right_ =>
          '(left_value, left_type, new_state) <- evaluate left_ state ;;
          '(right_value, right_type, new_state) <- evaluate right_ new_state ;;
          if negb (Type_eqb left_type right_type) then raise InterpTypeError
          else
            match left_type with
            | Integer | Boolean | String | FloatingPoint =>
                result <- host (py_ge left_value right_value) ;;
                ret (result, Boolean, new_state)
            | Unit => ret (PyBool true, Boolean, new_state)
            end
      | Eq left_ right_ =>
          '(left_value, left_type, new_state) <- evaluate left_ state ;;
          '(right_value, right_type, new_state) <- evaluate right_ new_state ;;
          if negb (Type_eqb left_type right_type) then raise InterpTypeError
          else
            match left_type with
            | Integer | Boolean | String | FloatingPoint =>
                result <- host (py_eq left_value right_value) ;;
                ret (result, Boolean, new_state)
            | Unit => ret (PyBool true, Boolean, new_state)
            end
      | Ne left_ right_ =>
          '(left_value, left_type, new_state) <- evaluate left_ state ;;
          '(right_value, right_type, new_state) <- evaluate right_ new_state ;;
          if negb (Type_eqb left_type right_type) then raise InterpTypeError
          else
            match left_type with
            | Integer | Boolean | String | FloatingPoint =>
                result <- host (py_ne left_value right_value) ;;
                ret (result, Boolean, new_state)
            | Unit => ret (PyBool false, Boolean, new_state)
            end
      | While condition body =>
          '(cond_result, cond_type, new_state) <- evaluate condition state ;;
          match cond_type with
          | Boolean =>
              while_loop evaluate fuel' condition body cond_result cond_type new_state
          | _ => raise InterpTypeError
          end
      end
  end.

(** [run_stimpl(program)]: evaluation from [EmptyState()], with nothing
    printed yet. *)
Definition run_stimpl (fuel : nat) (program : Expr) : outcome Result * list line :=
  evaluate fuel program EmptyState [].

(** [evaluates e s out r out']: from state [s], with [out] already printed,
    the evaluation of [e] ends with [r] (a result or an exception) and has
    printed [out'] by then. *)
Definition evaluates (e : Expr) (s : State) (out : list line)
  (r : outcome Result) (out' : list line) : Prop :=
  exists fuel, evaluate fuel e s out = (r, out') /\ r <> Raise OutOfFuel.

(** ** Relations and predicates used by the statements *)

(** [m'] agrees with [m] wherever [m] ends without exhausting its fuel. *)
Definition le_M {A : Type} (m m' : M A) : Prop :=
  forall out r out', m out = (r, out') -> r <> Raise OutOfFuel -> m' out = (r, out').

(** [threaded es s out s' out']: the children [es] evaluate one after the
    other without an exception, each from the state and output left by the
    one before; they lead from [(s, out)] to [(s', out')]. *)
Inductive threaded : list Expr -> State -> list line -> State -> list line -> Prop :=
| threaded_nil (s : State) (out : list line) : threaded [] s out s out
| threaded_cons (e : Expr) (es : list Expr) (s : State) (out : list line)
    (v : pyvalue) (t : Type_) (s1 : State) (o1 : list line)
    (s2 : State) (o2 : list line) :
    evaluates e s out (Ok (v, t, s1)) o1 ->
    threaded es s1 o1 s2 o2 ->
    threaded (e :: es) s out s2 o2.

(** [well_tagged v t]: the Python class of [v] is the one that the tag [t]
    announces. *)
Definition well_tagged (v : pyvalue) (t : Type_) : Prop :=
  match t, v with
  | Unit, PyNone
  | Integer, PyInt _
  | FloatingPoint, PyFloat _
  | String, PyStr _
  | Boolean, PyBool _ => True
  | _, _ => False
  end.

Fixpoint state_tagged (s : State) : Prop :=
  match s with
  | EmptyState => True
  | mkState _ (v, t) next_state => well_tagged v t /\ state_tagged next_state
  end.

Definition result_tagged (r : Result) : Prop :=
  let '(v, t, s) := r in well_tagged v t /\ state_tagged s.

(** [holds P m]: a result of [m] satisfies [P], and [m] never applies a host
    operator outside its class. *)
Definition holds {A : Type} (P : A -> Prop) (m : M A) : Prop :=
  forall out r out', m out = (r, out') ->
    match r with
    | Ok a => P a
    | Raise e => e <> HostMismatch
    end.

(** The program [i := 0; sum := 0; while i < N: (sum := sum + i; i := i + 1)]
    over a counter [i], an accumulator [sum] and a bound [N]. *)
Definition loop_condition (i : string) (N : Z) : Expr :=
  Lt (Variable_ i) (IntLiteral N).

Definition loop_body (i sum : string) : Expr :=
  Sequence [Assign sum (Add (Variable_ sum) (Variable_ i));
            Assign i (Add (Variable_ i) (IntLiteral 1))].

Definition counting_program (i sum : string) (N : Z) : Expr :=
  Program [Assign i (IntLiteral 0);
           Assign sum (IntLiteral 0);
           While (loop_condition i N) (loop_body i sum)].

(** ** Further notions: chains, syntax and postconditions *)

(** [State.copy]: a new head frame with the fields of the old one, the tail
    shared; [EmptyState.copy] is a new empty state. *)
Definition copy (self : State) : State :=
  match self with
  | EmptyState => EmptyState
  | mkState variable_name (variable_value, variable_type) next_state =>
      mkState variable_name (variable_value, variable_type) next_state
  end.

(** The names of the frames of a chain, from the head. *)
Fixpoint names (s : State) : list string :=
  match s with
  | EmptyState => []
  | mkState name _ next_state => name :: names next_state
  end.

(** The frames of a chain as an association list, from the head. *)
Fixpoint frames (s : State) : list (string * (pyvalue * Type_)) :=
  match s with
  | EmptyState => []
  | mkState name value next_state => (name, value) :: frames next_state
  end.

(** [extends s' s]: following [next_state] from [s'] leads to [s]. *)
Inductive extends : State -> State -> Prop :=
| extends_refl (s : State) : extends s s
| extends_frame (name : string) (value : pyvalue * Type_) (s' s : State) :
    extends s' s -> extends (mkState name value s') s.

(** [binds s x t]: the chain [s] binds [x] at type [t]. *)
Definition binds (s : State) (x : string) (t : Type_) : Prop :=
  exists v, get_value s x = Some (v, t).

(** [mentions p e]: some node of [e], [e] included, satisfies [p]. *)
Fixpoint mentions (p : Expr -> bool) (e : Expr) : bool :=
  p e ||
  match e with
  | Ren | IntLiteral _ | FloatingPointLiteral _ | StringLiteral _
  | BooleanLiteral _ | Variable_ _ => false
  | Print e1 | Not e1 | Assign _ e1 => mentions p e1
  | Sequence es | Program es => existsb (mentions p) es
  | Add l r | Subtract l r | Multiply l r | Divide l r | And l r | Or l r
  | Lt l r | Lte l r | Gt l r | Gte l r | Eq l r | Ne l r | While l r =>
      mentions p l || mentions p r
  | If c t f => mentions p c || mentions p t || mentions p f
  end.

Definition is_Assign (e : Expr) : bool :=
  match e with Assign _ _ => true | _ => false end.

Definition is_Print (e : Expr) : bool :=
  match e with Print _ => true | _ => false end.

Definition is_Divide (e : Expr) : bool :=
  match e with Divide _ _ => true | _ => false end.

Definition is_Variable (e : Expr) : bool :=
  match e with Variable_ _ => true | _ => false end.

(** An [Assign] node whose target is [x]. *)
Definition assigns_to (x : string) (e : Expr) : bool :=
  match e with Assign y _ => String.eqb y x | _ => false end.

(** An [Assign] node whose target is not among [L]. *)
Definition assigns_outside (L : list string) (e : Expr) : bool :=
  match e with Assign y _ => negb (existsb (String.eqb y) L) | _ => false end.

(** The twelve nodes with a left and a right operand. *)
Definition binary_nodes (l r : Expr) : list Expr :=
  [Add l r; Subtract l r; Multiply l r; Divide l r; And l r; Or l r;
   Lt l r; Lte l r; Gt l r; Gte l r; Eq l r; Ne l r].

(** [ensures P E m]: a result of [m] satisfies [P] and an exception of [m]
    satisfies [E]. *)
Definition ensures {A : Type} (P : A -> Prop) (E : abort -> Prop) (m : M A) : Prop :=
  forall out r out', m out = (r, out') ->
    match r with
    | Ok a => P a
    | Raise e => E e
    end.

(** [silent m]: [m] prints nothing. *)
Definition silent {A : Type} (m : M A) : Prop :=
  forall out r out', m out = (r, out') -> out' = out.

(** [framed m]: [m] only appends to the output, and does the same whatever
    has been printed before. *)
Definition framed {A : Type} (m : M A) : Prop :=
  forall out, m out = (fst (m []), (out ++ snd (m []))%list).

(** The line that [Print] writes for a value of a given type. *)
Definition printed_line (v : pyvalue) (t : Type_) : line :=
  match t with
  | Unit => Text "Unit"
  | _ => Formatted v
  end.

(** ** Tags, states and the monad: basic facts *)

Lemma Type_eqb_eq (a b : Type_) : Type_eqb a b = true <-> a = b.
Proof. destruct a, b; simpl; split; congruence. Qed.

Lemma Type_eqb_refl (a : Type_) : Type_eqb a a = true.
Proof. now apply Type_eqb_eq. Qed.

Lemma Type_eqb_neq (a b : Type_) : Type_eqb a b = false <-> a <> b.
Proof.
  rewrite <- Type_eqb_eq. destruct (Type_eqb a b); split; congruence.
Qed.


Lemma le_M_refl {A : Type} (m : M A) : le_M m m.
Proof. intros out r out' H _. exact H. Qed.

Lemma le_M_raise_fuel {A : Type} (m : M A) : le_M (raise OutOfFuel) m.
Proof. intros out r out' H Hr. unfold raise in H. congruence. Qed.

Lemma le_M_bind {A B : Type} (m m' : M A) (k k' : A -> M B) :
  le_M m m' -> (forall a, le_M (k a) (k' a)) -> le_M (bind m k) (bind m' k').
Proof.
  intros Hm Hk out r out' H Hr. unfold bind in *.
  destruct (m out) as [[a | e] out1] eqn:E.
  - rewrite (Hm _ _ _ E) by discriminate. now apply Hk.
  - inversion H; subst.
    rewrite (Hm _ _ _ E) by (intro X; apply Hr; now inversion X).
    reflexivity.
Qed.

(** ** More fuel never changes an evaluation that has ended *)

Ltac mono_step :=
  first
    [ apply le_M_refl
    | solve [ auto ]
    | apply le_M_raise_fuel
    | apply le_M_bind; [ solve [ auto ] | intros ]
    | match goal with
      | |- le_M (match ?x with _ => _ end) _ => destruct x
      end ].

Lemma for_exprs_mono (ev ev' : Expr -> State -> M Result) :
  (forall e s, le_M (ev e s) (ev' e s)) ->
  forall exprs acc, le_M (for_exprs ev exprs acc) (for_exprs ev' exprs acc).
Proof.
  intros Hev exprs. induction exprs as [| expr rest IH]; intros [[v t] s]; simpl.
  - apply le_M_refl.
  - apply le_M_bind; auto.
Qed.

Lemma while_loop_mono (ev ev' : Expr -> State -> M Result) :
  (forall e s, le_M (ev e s) (ev' e s)) ->
  forall n n', (n <= n')%nat ->
  forall condition body result cond_type new_state,
    le_M (while_loop ev n condition body result cond_type new_state)
         (while_loop ev' n' condition body result cond_type new_state).
Proof.
  intros Hev n. induction n as [| n IH]; intros n' Hle c b result ct s.
  - destruct n'; simpl; destruct (truthy result); repeat mono_step.
  - destruct n' as [| n']; [lia |]. simpl.
    destruct (truthy result); [| apply le_M_refl].
    apply le_M_bind; [apply Hev |]. intros [[v1 t1] s1].
    apply le_M_bind; [apply Hev |]. intros [[v2 t2] s2].
    destruct t2; try apply le_M_refl. apply IH. lia.
Qed.

Lemma evaluate_mono (n m : nat) :
  (n <= m)%nat -> forall e s, le_M (evaluate n e s) (evaluate m e s).
Proof.
  revert m. induction n as [| n IH]; intros m Hle e s.
  - apply le_M_raise_fuel.
  - destruct m as [| m]; [lia |].
    assert (Hev : forall e s, le_M (evaluate n e s) (evaluate m e s))
      by (intros; apply IH; lia).
    destruct e; simpl;
      try (repeat mono_step; fail).
    + apply le_M_bind; [apply Hev |]. intros a. now apply for_exprs_mono.
    + apply le_M_bind; [apply Hev |]. intros a. now apply for_exprs_mono.
    + apply le_M_bind; [apply Hev |]. intros [[v t] s1].
      destruct t; try apply le_M_refl. apply while_loop_mono; [exact Hev | lia].
Qed.

Lemma evaluates_det (e : Expr) (s : State) (out : list line)
  (r1 r2 : outcome Result) (o1 o2 : list line) :
  evaluates e s out r1 o1 -> evaluates e s out r2 o2 -> r1 = r2 /\ o1 = o2.
Proof.
  intros [n1 [H1 N1]] [n2 [H2 N2]].
  pose proof (evaluate_mono n1 (Nat.max n1 n2) ltac:(lia) e s out r1 o1 H1 N1) as E1.
  pose proof (evaluate_mono n2 (Nat.max n1 n2) ltac:(lia) e s out r2 o2 H2 N2) as E2.
  rewrite E1 in E2. now inversion E2.
Qed.

(** An evaluation that has ended is replayed by every larger fuel. *)
Lemma evaluates_fuel (e : Expr) (s : State) (out : list line)
  (r : outcome Result) (out' : list line) :
  evaluates e s out r out' ->
  exists n, forall m, (n <= m)%nat -> evaluate m e s out = (r, out').
Proof.
  intros [n [H N]]. exists n. intros m Hle. now apply (evaluate_mono n m).
Qed.

(** ** The environment chain *)

Lemma get_value_head (c : State) (n : string) (v : pyvalue) (t : Type_) :
  get_value (set_value c n v t) n = Some (v, t).
Proof. simpl. now rewrite String.eqb_refl. Qed.

Lemma get_value_tail (c : State) (n n2 : string) (v : pyvalue) (t : Type_) :
  n2 <> n -> get_value (set_value c n v t) n2 = get_value c n2.
Proof.
  intros Hne. simpl. destruct (String.eqb_spec n2 n) as [E | _].
  - contradiction.
  - reflexivity.
Qed.

(** C2. Shadowing: a lookup of [n] in [set_value c n v t] returns [(v, t)],
    the most recent binding, and a lookup of any other name [n2] returns what
    the lookup in [c] returns. *)
Theorem lookup_extend_shadowing (c : State) (n : string) (v : pyvalue) (t : Type_) :
  get_value (set_value c n v t) n = Some (v, t) /\
  (forall n2 : string, n2 <> n ->
     get_value (set_value c n v t) n2 = get_value c n2).
Proof.
  split.
  - apply get_value_head.
  - intros n2 Hne. now apply get_value_tail.
Qed.

Lemma lookup_extend_shadowing_witness :
  get_value (set_value (set_value EmptyState "y" (PyBool true) Boolean)
                       "x" (PyInt 1) Integer) "x" = Some (PyInt 1, Integer) /\
  "y" <> "x" /\
  get_value (set_value (set_value EmptyState "y" (PyBool true) Boolean)
                       "x" (PyInt 1) Integer) "y" = Some (PyBool true, Boolean).
Proof.
  assert (Hne : "y" <> "x") by discriminate.
  destruct (lookup_extend_shadowing
              (set_value EmptyState "y" (PyBool true) Boolean)
              "x" (PyInt 1) Integer) as [Hhead Htail].
  split; [exact Hhead |]. split; [exact Hne |].
  rewrite (Htail "y" Hne). reflexivity.
Defined.

(** ** Reading a variable *)

Lemma evaluates_intro (fuel : nat) (e : Expr) (s : State) (out : list line)
  (r : Result) (out' : list line) :
  evaluate fuel e s out = (Ok r, out') -> evaluates e s out (Ok r) out'.
Proof. intros H. exists fuel. split; [exact H | discriminate]. Qed.

(** C9. A reference to a name without a binding in the current chain fails
    with the syntax error; a reference to a bound name returns the bound
    value and type, and the chain it was given. *)
Theorem variable_reference (x : string) (s : State) (out : list line) :
  (get_value s x = None ->
     evaluates (Variable_ x) s out (Raise InterpSyntaxError) out) /\
  (forall v t, get_value s x = Some (v, t) ->
     evaluates (Variable_ x) s out (Ok (v, t, s)) out).
Proof.
  split.
  - intros H. exists 1%nat. simpl. rewrite H. split; [reflexivity | discriminate].
  - intros v t H. exists 1%nat. simpl. rewrite H. split; [reflexivity | discriminate].
Qed.

Lemma variable_reference_witness :
  evaluates (Variable_ "x") EmptyState [] (Raise InterpSyntaxError) [] /\
  evaluates (Variable_ "x") (set_value EmptyState "x" (PyInt 7) Integer) []
    (Ok (PyInt 7, Integer, set_value EmptyState "x" (PyInt 7) Integer)) [].
Proof.
  split.
  - apply (proj1 (variable_reference "x" EmptyState [])). reflexivity.
  - apply (proj2 (variable_reference "x" (set_value EmptyState "x" (PyInt 7) Integer) [])).
    reflexivity.
Defined.

(** ** Replaying evaluations of operands inside a node *)

(** [replay2 H1 H2] proves [evaluates node s out r out'] for a node whose
    case evaluates two operands in turn, from the evaluations [H1] and [H2]
    of these operands. *)
Ltac replay2 H1 H2 :=
  let n1 := fresh "n" in
  let n2 := fresh "n" in
  let F1 := fresh "F" in
  let F2 := fresh "F" in
  destruct (evaluates_fuel _ _ _ _ _ H1) as [n1 F1];
  destruct (evaluates_fuel _ _ _ _ _ H2) as [n2 F2];
  exists (S (Nat.max n1 n2));
  split; [ simpl; unfold bind; rewrite F1 by lia; rewrite F2 by lia | discriminate ].

Ltac replay1 H1 :=
  let n1 := fresh "n" in
  let F1 := fresh "F" in
  destruct (evaluates_fuel _ _ _ _ _ H1) as [n1 F1];
  exists (S n1);
  split; [ simpl; unfold bind; rewrite F1 by lia | discriminate ].

(** ** Assignment *)

(** C3. Assignment evaluates its value expression first; with the name bound
    in the resulting chain at another type it fails with the type error;
    with the name absent, or bound at the type of the value, it returns the
    value and its type with the chain extended by the new binding. *)
Theorem assign_contract (x : string) (value : Expr) (s : State) (out : list line)
  (v : pyvalue) (t : Type_) (s' : State) (out' : list line) :
  evaluates value s out (Ok (v, t, s')) out' ->
  (forall v0 t0, get_value s' x = Some (v0, t0) -> t0 <> t ->
     evaluates (Assign x value) s out (Raise InterpTypeError) out') /\
  (get_value s' x = None \/ (exists v0, get_value s' x = Some (v0, t)) ->
     evaluates (Assign x value) s out (Ok (v, t, set_value s' x v t)) out').
Proof.
  intros Hv. split.
  - intros v0 t0 Hb Hne. replay1 Hv. rewrite Hb.
    assert (E : Type_eqb t t0 = false) by (apply Type_eqb_neq; congruence).
    rewrite E. reflexivity.
  - intros [Hb | [v0 Hb]]; replay1 Hv; rewrite Hb.
    + reflexivity.
    + rewrite Type_eqb_refl. reflexivity.
Qed.

Lemma assign_contract_witness :
  evaluates (Assign "x" (BooleanLiteral true))
    (set_value EmptyState "x" (PyInt 1) Integer) []
    (Raise InterpTypeError) [] /\
  evaluates (Assign "x" (IntLiteral 2))
    (set_value EmptyState "x" (PyInt 1) Integer) []
    (Ok (PyInt 2, Integer,
         set_value (set_value EmptyState "x" (PyInt 1) Integer) "x" (PyInt 2) Integer)) [] /\
  evaluates (Assign "x" (IntLiteral 2)) EmptyState []
    (Ok (PyInt 2, Integer, set_value EmptyState "x" (PyInt 2) Integer)) [].
Proof.
  split; [| split].
  - apply (proj1 (assign_contract "x" (BooleanLiteral true)
                    (set_value EmptyState "x" (PyInt 1) Integer) []
                    (PyBool true) Boolean
                    (set_value EmptyState "x" (PyInt 1) Integer) []
                    (evaluates_intro 1 (BooleanLiteral true)
                       (set_value EmptyState "x" (PyInt 1) Integer) []
                       (PyBool true, Boolean, set_value EmptyState "x" (PyInt 1) Integer)
                       [] eq_refl))
            (PyInt 1) Integer).
    + reflexivity.
    + discriminate.
  - apply (proj2 (assign_contract "x" (IntLiteral 2)
                    (set_value EmptyState "x" (PyInt 1) Integer) []
                    (PyInt 2) Integer
                    (set_value EmptyState "x" (PyInt 1) Integer) []
                    (evaluates_intro 1 (IntLiteral 2)
                       (set_value EmptyState "x" (PyInt 1) Integer) []
                       (PyInt 2, Integer, set_value EmptyState "x" (PyInt 1) Integer)
                       [] eq_refl))).
    right. exists (PyInt 1). reflexivity.
  - apply (proj2 (assign_contract "x" (IntLiteral 2) EmptyState []
                    (PyInt 2) Integer EmptyState []
                    (evaluates_intro 1 (IntLiteral 2) EmptyState []
                       (PyInt 2, Integer, EmptyState) [] eq_refl))).
    left. reflexivity.
Defined.

(** ** Relational operators on Unit operands *)

(** C6. Every relational operator applied to two operands of type Unit
    succeeds with a Boolean that does not depend on the operand values:
    [<] false, [<=] true, [>] false, [>=] true, [==] true, [!=] false. *)
Theorem relational_unit_fixed (l r : Expr) (s : State) (out : list line)
  (vl vr : pyvalue) (s1 s2 : State) (o1 o2 : list line) :
  evaluates l s out (Ok (vl, Unit, s1)) o1 ->
  evaluates r s1 o1 (Ok (vr, Unit, s2)) o2 ->
  evaluates (Lt l r) s out (Ok (PyBool false, Boolean, s2)) o2 /\
  evaluates (Lte l r) s out (Ok (PyBool true, Boolean, s2)) o2 /\
  evaluates (Gt l r) s out (Ok (PyBool false, Boolean, s2)) o2 /\
  evaluates (Gte l r) s out (Ok (PyBool true, Boolean, s2)) o2 /\
  evaluates (Eq l r) s out (Ok (PyBool true, Boolean, s2)) o2 /\
  evaluates (Ne l r) s out (Ok (PyBool false, Boolean, s2)) o2.
Proof.
  intros Hl Hr. repeat split; try discriminate.
  all: destruct (evaluates_fuel _ _ _ _ _ Hl) as [n1 F1];
       destruct (evaluates_fuel _ _ _ _ _ Hr) as [n2 F2];
       exists (S (Nat.max n1 n2)); split; [| discriminate];
       simpl; unfold bind; rewrite F1 by lia; rewrite F2 by lia; reflexivity.
Qed.

Lemma relational_unit_fixed_witness :
  evaluates (Lt Ren Ren) EmptyState [] (Ok (PyBool false, Boolean, EmptyState)) [] /\
  evaluates (Eq Ren Ren) EmptyState [] (Ok (PyBool true, Boolean, EmptyState)) [].
Proof.
  pose proof (relational_unit_fixed Ren Ren EmptyState [] PyNone PyNone
                EmptyState EmptyState [] []
                (evaluates_intro 1 Ren EmptyState [] (PyNone, Unit, EmptyState) [] eq_refl)
                (evaluates_intro 1 Ren EmptyState [] (PyNone, Unit, EmptyState) [] eq_refl))
    as H.
  split.
  - exact (proj1 H).
  - exact (proj1 (proj2 (proj2 (proj2 (proj2 H))))).
Defined.

(** ** Division *)

(** The [Divide] case after both operands have been evaluated at one common
    type: the zero test on the right value comes before the match on the
    type. *)
Lemma divide_same_type (l r : Expr) (s : State) (out : list line)
  (vl vr : pyvalue) (t : Type_) (s1 s2 : State) (o1 o2 : list line) :
  evaluates l s out (Ok (vl, t, s1)) o1 ->
  evaluates r s1 o1 (Ok (vr, t, s2)) o2 ->
  (py_eq_zero vr = true ->
     evaluates (Divide l r) s out (Raise InterpMathError) o2) /\
  (py_eq_zero vr = false -> t <> Integer -> t <> FloatingPoint ->
     evaluates (Divide l r) s out (Raise InterpTypeError) o2) /\
  (py_eq_zero vr = false -> t = Integer ->
     forall q, py_floordiv vl vr = Some q ->
     evaluates (Divide l r) s out (Ok (q, Integer, s2)) o2).
Proof.
  intros Hl Hr. split; [| split].
  - intros Hz. replay2 Hl Hr. rewrite Type_eqb_refl, Hz. reflexivity.
  - intros Hz Hi Hf. replay2 Hl Hr. rewrite Type_eqb_refl, Hz.
    destruct t; try reflexivity; contradiction.
  - intros Hz Ht q Hq. subst t. replay2 Hl Hr. simpl. rewrite Hz, Hq. reflexivity.
Qed.

(** Division of two Unit operands is a type error: [None == 0] is false. *)
Lemma divide_unit_type_error (l r : Expr) (s : State) (out : list line)
  (s1 s2 : State) (o1 o2 : list line) :
  evaluates l s out (Ok (PyNone, Unit, s1)) o1 ->
  evaluates r s1 o1 (Ok (PyNone, Unit, s2)) o2 ->
  evaluates (Divide l r) s out (Raise InterpTypeError) o2.
Proof.
  intros Hl Hr.
  apply (proj1 (proj2 (divide_same_type l r s out _ _ _ _ _ _ _ Hl Hr)));
    [reflexivity | discriminate | discriminate].
Qed.

(** Division of two Boolean operands: a type error when the right operand is
    [True], the division-by-zero error when it is [False]. *)
Lemma divide_on_booleans (l r : Expr) (s : State) (out : list line)
  (bl br : bool) (s1 s2 : State) (o1 o2 : list line) :
  evaluates l s out (Ok (PyBool bl, Boolean, s1)) o1 ->
  evaluates r s1 o1 (Ok (PyBool br, Boolean, s2)) o2 ->
  evaluates (Divide l r) s out
    (Raise (if br then InterpTypeError else InterpMathError)) o2.
Proof.
  intros Hl Hr.
  destruct (divide_same_type l r s out _ _ _ _ _ _ _ Hl Hr) as [Hm [Ht _]].
  destruct br.
  - apply Ht; [reflexivity | discriminate | discriminate].
  - apply Hm. reflexivity.
Qed.

(** C1. Division of the Boolean literals [True] and [False] ends with the
    division-by-zero error, and not with the type error: the zero test
    [right_result == 0] holds of [False] and precedes the match on the
    operand type. *)
Theorem divide_boolean_false_divisor (s : State) (out : list line) :
  evaluates (Divide (BooleanLiteral true) (BooleanLiteral false)) s out
    (Raise InterpMathError) out /\
  ~ evaluates (Divide (BooleanLiteral true) (BooleanLiteral false)) s out
      (Raise InterpTypeError) out.
Proof.
  assert (H : evaluates (Divide (BooleanLiteral true) (BooleanLiteral false)) s out
                (Raise InterpMathError) out).
  { exists 2%nat. split; [reflexivity | discriminate]. }
  split; [exact H |].
  intros H'. destruct (evaluates_det _ _ _ _ _ _ _ H H') as [E _]. discriminate.
Qed.

(** [a / b] on [Z] is the floor of the quotient. *)
Lemma Zdiv_floor (a b : Z) :
  (0 < b -> b * (a / b) <= a < b * (a / b + 1)) /\
  (b < 0 -> b * (a / b + 1) < a <= b * (a / b)).
Proof.
  split; intros Hb.
  - pose proof (Z.div_mod a b ltac:(lia)) as E.
    pose proof (Z.mod_pos_bound a b Hb) as B. lia.
  - pose proof (Z.div_mod a b ltac:(lia)) as E.
    pose proof (Z.mod_neg_bound a b Hb) as B. lia.
Qed.

(** C5. On two Integer operands [a] and [b], [Divide] returns the floor of
    [a / b] at type Integer when [b] is not zero, and fails with the math
    error when [b] is zero; [7 / 2] is [3] in an unchanged chain and [1 / 0]
    is the math error. *)
Theorem divide_integer_floor :
  (forall (l r : Expr) (s : State) (out : list line) (a b : Z)
          (s1 s2 : State) (o1 o2 : list line),
     evaluates l s out (Ok (PyInt a, Integer, s1)) o1 ->
     evaluates r s1 o1 (Ok (PyInt b, Integer, s2)) o2 ->
     (b <> 0 ->
        evaluates (Divide l r) s out (Ok (PyInt (a / b), Integer, s2)) o2 /\
        (0 < b -> b * (a / b) <= a < b * (a / b + 1)) /\
        (b < 0 -> b * (a / b + 1) < a <= b * (a / b))) /\
     (b = 0 -> evaluates (Divide l r) s out (Raise InterpMathError) o2)) /\
  (forall (s : State) (out : list line),
     evaluates (Divide (IntLiteral 7) (IntLiteral 2)) s out
       (Ok (PyInt 3, Integer, s)) out) /\
  (forall (s : State) (out : list line),
     evaluates (Divide (IntLiteral 1) (IntLiteral 0)) s out
       (Raise InterpMathError) out).
Proof.
  split; [| split].
  - intros l r s out a b s1 s2 o1 o2 Hl Hr.
    destruct (divide_same_type l r s out _ _ _ _ _ _ _ Hl Hr) as [Hm [_ Hq]].
    split.
    + intros Hb. split; [| apply Zdiv_floor].
      apply Hq; [| reflexivity | reflexivity].
      simpl. now apply Z.eqb_neq.
    + intros Hb. apply Hm. simpl. now apply Z.eqb_eq.
  - intros s out. exists 2%nat. split; [reflexivity | discriminate].
  - intros s out. exists 2%nat. split; [reflexivity | discriminate].
Qed.

Lemma divide_integer_floor_witness :
  evaluates (Divide (IntLiteral (-7)) (IntLiteral 2)) EmptyState []
    (Ok (PyInt (-4), Integer, EmptyState)) [] /\
  evaluates (Divide (IntLiteral 7) (IntLiteral (-2))) EmptyState []
    (Ok (PyInt (-4), Integer, EmptyState)) [] /\
  evaluates (Divide (IntLiteral 5) (IntLiteral 0)) EmptyState []
    (Raise InterpMathError) [].
Proof.
  assert (L : forall z, evaluates (IntLiteral z) EmptyState []
                          (Ok (PyInt z, Integer, EmptyState)) []).
  { intros z. exists 1%nat. split; [reflexivity | discriminate]. }
  split; [| split].
  - apply (proj1 divide_integer_floor (IntLiteral (-7)) (IntLiteral 2)
             EmptyState [] (-7) 2 EmptyState EmptyState [] [] (L (-7)) (L 2)).
    lia.
  - apply (proj1 divide_integer_floor (IntLiteral 7) (IntLiteral (-2))
             EmptyState [] 7 (-2) EmptyState EmptyState [] [] (L 7) (L (-2))).
    lia.
  - apply (proj1 divide_integer_floor (IntLiteral 5) (IntLiteral 0)
             EmptyState [] 5 0 EmptyState EmptyState [] [] (L 5) (L 0)).
    reflexivity.
Defined.

(** ** Conditional *)

(** The [If] case once its condition has evaluated to a Boolean: what is
    left is the evaluation of the chosen branch, from the state and the
    output that the condition left. *)
Lemma evaluate_If_chosen (n : nat) (c t f : Expr) (s : State) (out : list line)
  (b : bool) (s1 : State) (o1 : list line) :
  evaluate n c s out = (Ok (PyBool b, Boolean, s1), o1) ->
  evaluate (S n) (If c t f) s out = evaluate n (if b then t else f) s1 o1.
Proof.
  intros H. simpl. unfold bind. rewrite H. simpl. now destruct b.
Qed.

(** C7. With a condition that evaluates to a Boolean, the conditional ends
    exactly as its chosen branch ends from the state and output left by the
    condition: result, bindings and output owe nothing to the other branch.
    After [If(false, x := 1, x := 2)], reading [x] yields 2 and the chain
    holds no binding made by the true branch. *)
Theorem conditional_short_circuit :
  (forall (c t f : Expr) (s : State) (out : list line) (b : bool)
          (s1 : State) (o1 : list line) (r : outcome Result) (o' : list line),
     evaluates c s out (Ok (PyBool b, Boolean, s1)) o1 ->
     (evaluates (If c t f) s out r o' <->
      evaluates (if b then t else f) s1 o1 r o')) /\
  (forall (x : string) (s : State) (out : list line),
     (forall v0 t0, get_value s x = Some (v0, t0) -> t0 = Integer) ->
     evaluates
       (Sequence [If (BooleanLiteral false) (Assign x (IntLiteral 1))
                     (Assign x (IntLiteral 2));
                  Variable_ x]) s out
       (Ok (PyInt 2, Integer, set_value s x (PyInt 2) Integer)) out).
Proof.
  split.
  - intros c t f s out b s1 o1 r o' Hc. split.
    + intros [n [H N]]. destruct n as [| n].
      { simpl in H. unfold raise in H. inversion H; subst. now contradiction N. }
      destruct (evaluate n c s out) as [[[[v ty] s'] | e] oc] eqn:E.
      * assert (Hc' : evaluates c s out (Ok (v, ty, s')) oc)
          by (exists n; split; [exact E | discriminate]).
        destruct (evaluates_det _ _ _ _ _ _ _ Hc Hc') as [E1 E2].
        inversion E1; subst.
        rewrite (evaluate_If_chosen _ _ _ _ _ _ _ _ _ E) in H.
        exists n. split; assumption.
      * simpl in H. unfold bind in H. rewrite E in H. inversion H; subst.
        assert (Hc' : evaluates c s out (Raise e) o')
          by (exists n; split; [exact E | intro X; apply N; now inversion X]).
        destruct (evaluates_det _ _ _ _ _ _ _ Hc Hc') as [E1 _]. discriminate.
    + intros [n2 [H N]].
      destruct (evaluates_fuel _ _ _ _ _ Hc) as [n1 F1].
      exists (S (Nat.max n1 n2)). split; [| exact N].
      rewrite (evaluate_If_chosen _ _ _ _ _ _ _ _ _ (F1 (Nat.max n1 n2) ltac:(lia))).
      apply (evaluate_mono n2); [lia | exact H | exact N].
  - intros x s out Hx. exists 4%nat. split; [| discriminate].
    simpl. unfold bind. simpl.
    destruct (get_value s x) as [[v0 t0] |] eqn:E; simpl.
    + rewrite (Hx _ _ eq_refl). simpl. unfold ret. simpl.
      rewrite String.eqb_refl. reflexivity.
    + unfold ret. simpl. rewrite String.eqb_refl. reflexivity.
Qed.

Lemma conditional_short_circuit_witness :
  evaluates
    (If (BooleanLiteral true) (Print (IntLiteral 1)) (Print (IntLiteral 2)))
    EmptyState [] (Ok (PyInt 1, Integer, EmptyState)) [Formatted (PyInt 1)] /\
  evaluates
    (Sequence [If (BooleanLiteral false) (Assign "x" (IntLiteral 1))
                  (Assign "x" (IntLiteral 2));
               Variable_ "x"]) EmptyState []
    (Ok (PyInt 2, Integer, set_value EmptyState "x" (PyInt 2) Integer)) [].
Proof.
  split.
  - apply (proj1 conditional_short_circuit (BooleanLiteral true)
             (Print (IntLiteral 1)) (Print (IntLiteral 2)) EmptyState [] true
             EmptyState [] (Ok (PyInt 1, Integer, EmptyState)) [Formatted (PyInt 1)]).
    + exists 1%nat. split; [reflexivity | discriminate].
    + exists 2%nat. split; [reflexivity | discriminate].
  - apply (proj2 conditional_short_circuit "x" EmptyState []).
    intros v0 t0 H. discriminate H.
Defined.

(** ** Sequence and Program *)


Lemma for_exprs_single (ev : Expr -> State -> M Result) (e : Expr)
  (v : pyvalue) (t : Type_) (s : State) (out : list line) :
  for_exprs ev [e] (v, t, s) out = ev e s out.
Proof.
  simpl. unfold bind, ret. now destruct (ev e s out) as [[a | x] o].
Qed.

(** The loop over [es ++ [e]] comes down to the evaluation of [e] where the
    children [es] have led. *)
Lemma for_exprs_threaded (es : list Expr) (s : State) (out : list line)
  (s1 : State) (o1 : list line) :
  threaded es s out s1 o1 ->
  forall e : Expr, exists n : nat, forall m : nat, (n <= m)%nat ->
  forall (v : pyvalue) (t : Type_),
    for_exprs (evaluate m) (es ++ [e]) (v, t, s) out = evaluate m e s1 o1.
Proof.
  induction 1 as [s out | e0 es s out v0 t0 s1 o1 s2 o2 He Hes IH]; intros e.
  - exists 0%nat. intros m _ v t. apply for_exprs_single.
  - destruct (IH e) as [n Hn].
    destruct (evaluates_fuel _ _ _ _ _ He) as [n0 F0].
    exists (Nat.max n n0). intros m Hm v t.
    change ((e0 :: es) ++ [e])%list with (e0 :: (es ++ [e]))%list.
    simpl. unfold bind. rewrite (F0 m) by lia. apply Hn. lia.
Qed.

Lemma evaluate_Sequence (n : nat) (exprs : list Expr) (s : State) (out : list line) :
  evaluate (S (S n)) (Sequence exprs) s out
  = for_exprs (evaluate (S n)) exprs (PyNone, Unit, s) out.
Proof. reflexivity. Qed.

Lemma evaluate_Program (n : nat) (exprs : list Expr) (s : State) (out : list line) :
  evaluate (S (S n)) (Program exprs) s out
  = for_exprs (evaluate (S n)) exprs (PyNone, Unit, s) out.
Proof. reflexivity. Qed.

(** C8. A Sequence or Program whose children are [es] followed by a last
    child [e] ends as [e] ends from the state and output to which [es] have
    led, threaded from left to right; with no child at all it returns what
    the Unit literal returns: the absent value, type Unit and the chain it
    was given. *)
Theorem sequence_last_child :
  (forall (es : list Expr) (e : Expr) (s : State) (out : list line)
          (s1 : State) (o1 : list line) (r : outcome Result) (o2 : list line),
     threaded es s out s1 o1 ->
     evaluates e s1 o1 r o2 ->
     evaluates (Sequence (es ++ [e])) s out r o2 /\
     evaluates (Program (es ++ [e])) s out r o2) /\
  (forall (s : State) (out : list line),
     evaluates (Sequence []) s out (Ok (PyNone, Unit, s)) out /\
     evaluates (Program []) s out (Ok (PyNone, Unit, s)) out /\
     evaluates Ren s out (Ok (PyNone, Unit, s)) out) /\
  (forall (s : State) (out : list line),
     evaluates (Sequence [IntLiteral 1; IntLiteral 2]) s out
       (Ok (PyInt 2, Integer, s)) out).
Proof.
  split; [| split].
  - intros es e s out s1 o1 r o2 Hes [n2 [He N]].
    destruct (for_exprs_threaded _ _ _ _ _ Hes e) as [n Hn].
    split; exists (S (S (Nat.max n n2))); (split; [| exact N]).
    + rewrite evaluate_Sequence. rewrite Hn by lia.
      apply (evaluate_mono n2); [lia | exact He | exact N].
    + rewrite evaluate_Program. rewrite Hn by lia.
      apply (evaluate_mono n2); [lia | exact He | exact N].
  - intros s out. repeat split; try discriminate.
    + exists 2%nat. split; [reflexivity | discriminate].
    + exists 2%nat. split; [reflexivity | discriminate].
    + exists 1%nat. split; [reflexivity | discriminate].
  - intros s out. exists 2%nat. split; [reflexivity | discriminate].
Qed.

Lemma sequence_last_child_witness :
  evaluates
    (Sequence ([Assign "x" (IntLiteral 1); Print (Variable_ "x")]
               ++ [Add (Variable_ "x") (IntLiteral 1)])) EmptyState []
    (Ok (PyInt 2, Integer, set_value EmptyState "x" (PyInt 1) Integer))
    [Formatted (PyInt 1)].
Proof.
  apply (proj1 sequence_last_child
           [Assign "x" (IntLiteral 1); Print (Variable_ "x")]
           (Add (Variable_ "x") (IntLiteral 1)) EmptyState []
           (set_value EmptyState "x" (PyInt 1) Integer) [Formatted (PyInt 1)]).
  - apply (threaded_cons _ _ _ _ (PyInt 1) Integer
             (set_value EmptyState "x" (PyInt 1) Integer) []).
    + exists 2%nat. split; [reflexivity | discriminate].
    + apply (threaded_cons _ _ _ _ (PyInt 1) Integer
               (set_value EmptyState "x" (PyInt 1) Integer) [Formatted (PyInt 1)]).
      * exists 2%nat. split; [reflexivity | discriminate].
      * apply threaded_nil.
  - exists 2%nat. split; [reflexivity | discriminate].
Defined.

(** ** Variables bound to the Unit value *)

(** C10. After [x := Ren()], a reference to [x] returns the Unit value at
    type Unit; and in any chain that binds [x] at type Unit a reference to
    [x] succeeds and does not raise the syntax error. *)
Theorem unit_binding_readable :
  (forall (x : string) (s : State) (out : list line),
     get_value s x = None \/ (exists v0, get_value s x = Some (v0, Unit)) ->
     evaluates (Sequence [Assign x Ren; Variable_ x]) s out
       (Ok (PyNone, Unit, set_value s x PyNone Unit)) out) /\
  (forall (x : string) (s : State) (out : list line) (v : pyvalue),
     get_value s x = Some (v, Unit) ->
     evaluates (Variable_ x) s out (Ok (v, Unit, s)) out /\
     forall out', ~ evaluates (Variable_ x) s out (Raise InterpSyntaxError) out').
Proof.
  split.
  - intros x s out Hx. exists 3%nat. split; [| discriminate].
    simpl. unfold bind. simpl.
    destruct Hx as [Hx | [v0 Hx]]; rewrite Hx; simpl; unfold ret; simpl;
      rewrite String.eqb_refl; reflexivity.
  - intros x s out v Hx.
    assert (H : evaluates (Variable_ x) s out (Ok (v, Unit, s)) out).
    { exists 1%nat. simpl. rewrite Hx. split; [reflexivity | discriminate]. }
    split; [exact H |].
    intros out' H'. destruct (evaluates_det _ _ _ _ _ _ _ H H') as [E _].
    discriminate.
Qed.

Lemma unit_binding_readable_witness :
  evaluates (Sequence [Assign "x" Ren; Variable_ "x"]) EmptyState []
    (Ok (PyNone, Unit, set_value EmptyState "x" PyNone Unit)) [] /\
  evaluates (Variable_ "x") (set_value EmptyState "x" PyNone Unit) []
    (Ok (PyNone, Unit, set_value EmptyState "x" PyNone Unit)) [].
Proof.
  split.
  - apply (proj1 unit_binding_readable "x" EmptyState []). left. reflexivity.
  - apply (proj2 unit_binding_readable "x"
             (set_value EmptyState "x" PyNone Unit) [] PyNone).
    reflexivity.
Defined.

(** ** Single cases of the evaluator, as equations *)

Lemma evaluate_IntLiteral (n : nat) (z : Z) (s : State) (out : list line) :
  evaluate (S n) (IntLiteral z) s out = (Ok (PyInt z, Integer, s), out).
Proof. reflexivity. Qed.

Lemma evaluate_Variable_bound (n : nat) (x : string) (s : State) (out : list line)
  (v : pyvalue) (t : Type_) :
  get_value s x = Some (v, t) ->
  evaluate (S n) (Variable_ x) s out = (Ok (v, t, s), out).
Proof. intros H. simpl. now rewrite H. Qed.

Lemma evaluate_Assign_fresh (n : nat) (x : string) (e : Expr) (s : State)
  (out : list line) (v : pyvalue) (t : Type_) (s1 : State) (o1 : list line) :
  evaluate n e s out = (Ok (v, t, s1), o1) ->
  get_value s1 x = None ->
  evaluate (S n) (Assign x e) s out = (Ok (v, t, set_value s1 x v t), o1).
Proof. intros He Hx. simpl. unfold bind. rewrite He, Hx. reflexivity. Qed.

Lemma evaluate_Assign_same (n : nat) (x : string) (e : Expr) (s : State)
  (out : list line) (v v0 : pyvalue) (t : Type_) (s1 : State) (o1 : list line) :
  evaluate n e s out = (Ok (v, t, s1), o1) ->
  get_value s1 x = Some (v0, t) ->
  evaluate (S n) (Assign x e) s out = (Ok (v, t, set_value s1 x v t), o1).
Proof.
  intros He Hx. simpl. unfold bind. rewrite He, Hx, Type_eqb_refl. reflexivity.
Qed.

Lemma evaluate_Add_int (n : nat) (l r : Expr) (s : State) (out : list line)
  (a b : Z) (s1 s2 : State) (o1 o2 : list line) :
  evaluate n l s out = (Ok (PyInt a, Integer, s1), o1) ->
  evaluate n r s1 o1 = (Ok (PyInt b, Integer, s2), o2) ->
  evaluate (S n) (Add l r) s out = (Ok (PyInt (a + b), Integer, s2), o2).
Proof. intros Hl Hr. simpl. unfold bind. rewrite Hl, Hr. reflexivity. Qed.

Lemma evaluate_Lt_int (n : nat) (l r : Expr) (s : State) (out : list line)
  (a b : Z) (s1 s2 : State) (o1 o2 : list line) :
  evaluate n l s out = (Ok (PyInt a, Integer, s1), o1) ->
  evaluate n r s1 o1 = (Ok (PyInt b, Integer, s2), o2) ->
  evaluate (S n) (Lt l r) s out = (Ok (PyBool (a <? b), Boolean, s2), o2).
Proof. intros Hl Hr. simpl. unfold bind. rewrite Hl, Hr. reflexivity. Qed.

Lemma evaluate_While (n : nat) (c b : Expr) (s : State) (out : list line)
  (v : pyvalue) (s1 : State) (o1 : list line) :
  evaluate n c s out = (Ok (v, Boolean, s1), o1) ->
  evaluate (S n) (While c b) s out = while_loop (evaluate n) n c b v Boolean s1 o1.
Proof. intros Hc. simpl. unfold bind. rewrite Hc. reflexivity. Qed.

Lemma for_exprs_cons (ev : Expr -> State -> M Result) (e : Expr) (es : list Expr)
  (v : pyvalue) (t : Type_) (s : State) (out : list line)
  (r : Result) (o1 : list line) :
  ev e s out = (Ok r, o1) ->
  for_exprs ev (e :: es) (v, t, s) out = for_exprs ev es r o1.
Proof. intros H. simpl. unfold bind. now rewrite H. Qed.

Lemma for_exprs_nil (ev : Expr -> State -> M Result) (r : Result) (out : list line) :
  for_exprs ev [] r out = (Ok r, out).
Proof. reflexivity. Qed.

(** ** A counting loop *)

Section CountingLoop.

(** The counter [i], the accumulator [sum] and the bound [N] of
    [while i < N: sum := sum + i; i := i + 1]. *)
Variables i sum : string.
Variable N : Z.
Hypothesis i_sum : i <> sum.

Lemma loop_condition_step (f : nat) (s : State) (out : list line) (k : Z) :
  get_value s i = Some (PyInt k, Integer) ->
  evaluate (S (S f)) (loop_condition i N) s out = (Ok (PyBool (k <? N), Boolean, s), out).
Proof.
  intros Hi. unfold loop_condition.
  apply (evaluate_Lt_int (S f) _ _ s out k N s s out out).
  - now apply evaluate_Variable_bound.
  - apply evaluate_IntLiteral.
Qed.

Lemma loop_body_step (f : nat) (s : State) (out : list line) (k a : Z) :
  get_value s i = Some (PyInt k, Integer) ->
  get_value s sum = Some (PyInt a, Integer) ->
  evaluate (S (S (S (S f)))) (loop_body i sum) s out
  = (Ok (PyInt (k + 1), Integer,
         set_value (set_value s sum (PyInt (a + k)) Integer) i (PyInt (k + 1)) Integer),
     out).
Proof.
  intros Hi Hs. unfold loop_body. rewrite evaluate_Sequence.
  set (s1 := set_value s sum (PyInt (a + k)) Integer).
  assert (Hi1 : get_value s1 i = Some (PyInt k, Integer)).
  { unfold s1. now rewrite get_value_tail by exact i_sum. }
  rewrite (for_exprs_cons _ _ _ _ _ _ _ (PyInt (a + k), Integer, s1) out).
  - rewrite (for_exprs_cons _ _ _ _ _ _ _
               (PyInt (k + 1), Integer, set_value s1 i (PyInt (k + 1)) Integer) out).
    + apply for_exprs_nil.
    + apply (evaluate_Assign_same _ _ _ _ _ _ (PyInt k) _ _ _); [| exact Hi1].
      apply (evaluate_Add_int _ _ _ s1 out k 1 s1 s1 out out).
      * now apply evaluate_Variable_bound.
      * apply evaluate_IntLiteral.
  - apply (evaluate_Assign_same _ _ _ _ _ _ (PyInt a) _ _ _); [| exact Hs].
    apply (evaluate_Add_int _ _ _ s out a k s s out out);
      now apply evaluate_Variable_bound.
Qed.

(** The loop invariant: [i] holds [k <= N], and twice [sum] is twice its
    initial value plus [k (k - 1)]. *)
Lemma counting_loop (d : nat) :
  forall (k a : Z) (s : State) (out : list line) (n f : nat),
    Z.of_nat d = N - k ->
    (d <= n)%nat ->
    get_value s i = Some (PyInt k, Integer) ->
    get_value s sum = Some (PyInt a, Integer) ->
    exists (s' : State) (a' : Z),
      while_loop (evaluate (S (S (S (S f))))) n (loop_condition i N) (loop_body i sum)
        (PyBool (k <? N)) Boolean s out
      = (Ok (PyBool false, Boolean, s'), out) /\
      get_value s' i = Some (PyInt N, Integer) /\
      get_value s' sum = Some (PyInt a', Integer) /\
      2 * a' = 2 * a + N * (N - 1) - k * (k - 1).
Proof.
  induction d as [| d IH]; intros k a s out n f Hd Hn Hi Hs.
  - assert (k = N) by lia. subst k.
    exists s, a. rewrite Z.ltb_irrefl.
    destruct n; simpl; repeat split; try assumption; lia.
  - destruct n as [| n]; [lia |].
    assert (Hlt : (k <? N) = true) by (apply Z.ltb_lt; lia).
    rewrite Hlt. cbn [while_loop truthy]. unfold bind.
    rewrite (loop_body_step f s out k a Hi Hs).
    set (s1 := set_value (set_value s sum (PyInt (a + k)) Integer) i
                 (PyInt (k + 1)) Integer).
    assert (Hi1 : get_value s1 i = Some (PyInt (k + 1), Integer))
      by apply get_value_head.
    assert (Hs1 : get_value s1 sum = Some (PyInt (a + k), Integer)).
    { unfold s1. rewrite get_value_tail by congruence. apply get_value_head. }
    rewrite (loop_condition_step (S (S f)) s1 out (k + 1) Hi1).
    destruct (IH (k + 1) (a + k) s1 out n f ltac:(lia) ltac:(lia) Hi1 Hs1)
      as [s' [a' [Hw [Hi' [Hs' Ha']]]]].
    exists s', a'. repeat split; try assumption. lia.
Qed.

(** From the empty state the program ends with [i] bound to [N] and [sum]
    bound to half of [N (N - 1)]. *)
Lemma counting_program_runs :
  0 <= N ->
  exists (s' : State) (a' : Z),
    evaluates (counting_program i sum N) EmptyState [] (Ok (PyBool false, Boolean, s')) [] /\
    get_value s' i = Some (PyInt N, Integer) /\
    get_value s' sum = Some (PyInt a', Integer) /\
    2 * a' = N * (N - 1).
Proof.
  intros HN.
  set (s0 := set_value (set_value EmptyState i (PyInt 0) Integer) sum (PyInt 0) Integer).
  assert (Hi0 : get_value s0 i = Some (PyInt 0, Integer)).
  { unfold s0. rewrite get_value_tail by exact i_sum. apply get_value_head. }
  assert (Hs0 : get_value s0 sum = Some (PyInt 0, Integer)) by apply get_value_head.
  set (F := Z.to_nat N).
  destruct (counting_loop (Z.to_nat N) 0 0 s0 [] (S (S (S (S F)))) F
              ltac:(lia) ltac:(lia) Hi0 Hs0) as [s' [a' [Hw [Hi' [Hs' Ha']]]]].
  exists s', a'. repeat split; try assumption; try lia.
  exists (S (S (S (S (S (S F)))))). split; [| discriminate].
  unfold counting_program. rewrite evaluate_Program.
  rewrite (for_exprs_cons _ _ _ _ _ _ _
             (PyInt 0, Integer, set_value EmptyState i (PyInt 0) Integer) []).
  2:{ apply evaluate_Assign_fresh; [apply evaluate_IntLiteral | reflexivity]. }
  rewrite (for_exprs_cons _ _ _ _ _ _ _ (PyInt 0, Integer, s0) []).
  2:{ apply evaluate_Assign_fresh; [apply evaluate_IntLiteral |].
      rewrite get_value_tail by congruence. reflexivity. }
  rewrite (for_exprs_cons _ _ _ _ _ _ _ (PyBool false, Boolean, s') []).
  - apply for_exprs_nil.
  - rewrite (evaluate_While _ _ _ _ _ (PyBool (0 <? N)) s0 []).
    + exact Hw.
    + now apply loop_condition_step.
Qed.

End CountingLoop.

(** C4. The loop that counts [i] from 0 while [i < 5], adding [i] into
    [sum] before each increment, terminates: the program ends, and in its
    final chain [sum] is bound to 10 and [i] to 5. *)
Theorem while_accumulation (i sum : string) :
  i <> sum ->
  exists s' : State,
    evaluates (counting_program i sum 5) EmptyState []
      (Ok (PyBool false, Boolean, s')) [] /\
    get_value s' sum = Some (PyInt 10, Integer) /\
    get_value s' i = Some (PyInt 5, Integer).
Proof.
  intros Hne.
  destruct (counting_program_runs i sum 5 Hne ltac:(lia))
    as [s' [a' [He [Hi [Hs Ha]]]]].
  exists s'. repeat split; try assumption.
  replace a' with 10 in Hs by lia. exact Hs.
Qed.

Lemma while_accumulation_witness :
  exists s' : State,
    evaluates (counting_program "i" "sum" 5) EmptyState []
      (Ok (PyBool false, Boolean, s')) [] /\
    get_value s' "sum" = Some (PyInt 10, Integer) /\
    get_value s' "i" = Some (PyInt 5, Integer).
Proof.
  apply (while_accumulation "i" "sum"). discriminate.
Defined.

(** ** Values carry their own tag *)


Lemma holds_ret {A : Type} (P : A -> Prop) (a : A) : P a -> holds P (ret a).
Proof. intros H out r out' E. unfold ret in E. inversion E; subst. exact H. Qed.

Lemma holds_raise {A : Type} (P : A -> Prop) (e : abort) :
  e <> HostMismatch -> holds P (raise e).
Proof. intros H out r out' E. unfold raise in E. inversion E; subst. exact H. Qed.

Lemma holds_bind {A B : Type} (P : A -> Prop) (Q : B -> Prop) (m : M A) (k : A -> M B) :
  holds P m -> (forall a, P a -> holds Q (k a)) -> holds Q (bind m k).
Proof.
  intros Hm Hk out r out' E. unfold bind in E.
  destruct (m out) as [[a | e] o1] eqn:Em.
  - apply (Hk a (Hm _ _ _ Em) _ _ _ E).
  - inversion E; subst. apply (Hm _ _ _ Em).
Qed.

Lemma holds_print (l : line) : holds (fun _ : unit => True) (print l).
Proof. intros out r out' E. unfold print in E. inversion E; subst. exact I. Qed.

Lemma get_value_tagged (s : State) (x : string) (v : pyvalue) (t : Type_) :
  state_tagged s -> get_value s x = Some (v, t) -> well_tagged v t.
Proof.
  induction s as [| name [v0 t0] next IH]; simpl; intros Hs Hg.
  - discriminate.
  - destruct Hs as [H0 Hn]. destruct (String.eqb x name).
    + inversion Hg; subst. exact H0.
    + now apply IH.
Qed.

Section TagSoundness.

Variable ev : Expr -> State -> M Result.
Hypothesis ev_sound : forall e s, state_tagged s -> holds result_tagged (ev e s).

Lemma for_exprs_tag_sound (exprs : list Expr) :
  forall acc, result_tagged acc -> holds result_tagged (for_exprs ev exprs acc).
Proof.
  induction exprs as [| e rest IH]; intros [[v t] s] [Hv Hs]; simpl.
  - apply holds_ret. now split.
  - apply (holds_bind result_tagged); [now apply ev_sound | exact IH].
Qed.

Lemma while_loop_tag_sound (n : nat) :
  forall condition body result cond_type new_state,
    well_tagged result cond_type -> state_tagged new_state ->
    holds result_tagged (while_loop ev n condition body result cond_type new_state).
Proof.
  induction n as [| n IH]; intros c b result ct s Hv Hs; simpl;
    destruct (truthy result); try (apply holds_ret; now split).
  - apply holds_raise. discriminate.
  - apply (holds_bind result_tagged); [now apply ev_sound |].
    intros [[v1 t1] s1] [_ Hs1].
    apply (holds_bind result_tagged); [now apply ev_sound |].
    intros [[v2 t2] s2] [Hv2 Hs2].
    destruct t2; try (apply holds_raise; discriminate). now apply IH.
Qed.

End TagSoundness.

Lemma holds_bind_ret {A B : Type} (Q : B -> Prop) (a : A) (k : A -> M B) :
  holds Q (k a) -> holds Q (bind (ret a) k).
Proof. intros H out r out' E. exact (H out r out' E). Qed.

(** After both operands of a binary node: the tags are compared, and the
    operands are of the class of the common tag. *)
Ltac tag_finish :=
  repeat first
    [ apply holds_raise; discriminate
    | apply holds_ret; unfold py_and, py_or, py_not; simpl;
      repeat match goal with
             | |- context [if ?b then _ else _] => destruct b
             end; simpl; tauto
    | apply holds_bind_ret
    | match goal with
      | |- holds _ (if ?b then _ else _) => destruct b
      end ].

Ltac same_tag lt rt lv rv :=
  destruct lt, rt; simpl; try (apply holds_raise; discriminate);
  destruct lv; simpl in *; try contradiction;
  destruct rv; simpl in *; try contradiction;
  tag_finish.

Ltac two_operands IH :=
  apply (holds_bind result_tagged); [now apply IH |];
  let lv := fresh "lv" in
  let lt := fresh "lt" in
  let s1 := fresh "s" in
  let rv := fresh "rv" in
  let rt := fresh "rt" in
  let s2 := fresh "s" in
  intros [[lv lt] s1] [? ?];
  apply (holds_bind result_tagged); [now apply IH |];
  intros [[rv rt] s2] [? ?];
  same_tag lt rt lv rv.

(** From a state whose values carry their own tag, every result of
    [evaluate] does, and no host operator is applied outside its class. *)
Lemma evaluate_tag_sound (n : nat) :
  forall e s, state_tagged s -> holds result_tagged (evaluate n e s).
Proof.
  induction n as [| n IH]; intros e s Hs.
  - apply holds_raise. discriminate.
  - destruct e; simpl;
      try (apply holds_ret; simpl; tauto);
      try (two_operands IH; fail).
    + apply (holds_bind result_tagged); [now apply IH |].
      intros [[v t] s1] [Hv Hs1].
      apply (holds_bind (fun _ => True)).
      * destruct t; apply holds_print.
      * intros _ _. apply holds_ret. now split.
    + apply (holds_bind result_tagged); [now apply IH |].
      intros acc Hacc. now apply for_exprs_tag_sound.
    + apply (holds_bind result_tagged); [now apply IH |].
      intros acc Hacc. now apply for_exprs_tag_sound.
    + destruct (get_value s variable_name) as [[v t] |] eqn:E.
      * apply holds_ret. split; [| exact Hs]. now apply (get_value_tagged s variable_name).
      * apply holds_raise. discriminate.
    + apply (holds_bind result_tagged); [now apply IH |].
      intros [[v t] s1] [Hv Hs1].
      destruct (get_value s1 variable) as [[v0 t0] |];
        [destruct (negb (Type_eqb t t0)) |];
        try (apply holds_raise; discriminate);
        apply holds_ret; simpl; tauto.
    + apply (holds_bind result_tagged); [now apply IH |].
      intros [[v t] s1] [Hv Hs1].
      destruct t; try (apply holds_raise; discriminate).
      apply holds_ret. simpl. tauto.
    + apply (holds_bind result_tagged); [now apply IH |].
      intros [[v t] s1] [Hv Hs1].
      destruct t; try (apply holds_raise; discriminate).
      destruct (truthy v); now apply IH.
    + apply (holds_bind result_tagged); [now apply IH |].
      intros [[v t] s1] [Hv Hs1].
      destruct t; try (apply holds_raise; discriminate).
      now apply while_loop_tag_sound.
Qed.

(** A program run starts from the empty state, so it never ends in a host
    operator applied outside its class. *)
Corollary run_stimpl_class_safe (fuel : nat) (program : Expr) :
  fst (run_stimpl fuel program) <> Raise HostMismatch.
Proof.
  unfold run_stimpl.
  destruct (evaluate fuel program EmptyState []) as [r out'] eqn:E.
  pose proof (evaluate_tag_sound fuel program EmptyState I _ _ _ E) as H.
  simpl. destruct r as [a | e].
  - discriminate.
  - intros X. inversion X; subst. now apply H.
Qed.

(** ** Postconditions of computations *)

Lemma ensures_ret {A : Type} (P : A -> Prop) (E : abort -> Prop) (a : A) :
  P a -> ensures P E (ret a).
Proof. intros H out r out' X. unfold ret in X. inversion X; subst. exact H. Qed.

Lemma ensures_raise {A : Type} (P : A -> Prop) (E : abort -> Prop) (e : abort) :
  E e -> ensures P E (raise e).
Proof. intros H out r out' X. unfold raise in X. inversion X; subst. exact H. Qed.

Lemma ensures_bind {A B : Type} (P : A -> Prop) (Q : B -> Prop) (E : abort -> Prop)
  (m : M A) (k : A -> M B) :
  ensures P E m -> (forall a, P a -> ensures Q E (k a)) -> ensures Q E (bind m k).
Proof.
  intros Hm Hk out r out' X. unfold bind in X.
  destruct (m out) as [[a | e] o1] eqn:Em.
  - apply (Hk a (Hm _ _ _ Em) _ _ _ X).
  - inversion X; subst. apply (Hm _ _ _ Em).
Qed.

Lemma ensures_host {A : Type} (E : abort -> Prop) (o : option A) :
  E HostMismatch -> ensures (fun _ => True) E (host o).
Proof.
  intros H. destruct o; simpl.
  - now apply ensures_ret.
  - now apply ensures_raise.
Qed.

Lemma ensures_print (E : abort -> Prop) (l : line) :
  ensures (fun _ : unit => True) E (print l).
Proof. intros out r out' X. unfold print in X. inversion X; subst. exact I. Qed.

(** [ens_leaves fin]: a postcondition of the part of a case that follows the
    evaluation of its operands, branch by branch; [fin] closes the leaves. *)
Ltac ens_leaves fin :=
  repeat first
    [ apply ensures_raise; fin
    | apply ensures_ret; fin
    | eapply ensures_bind; [ apply ensures_host; fin | intros ? _ ]
    | eapply ensures_bind; [ apply ensures_print | intros ? _ ]
    | match goal with
      | |- ensures _ _ (if ?b then _ else _) => destruct b
      | |- ensures _ _ (match ?x with _ => _ end) => destruct x
      | |- ensures _ _ (bind (match ?x with _ => _ end) _) => destruct x
      end ].

(** ** What every evaluation keeps of its state *)

Lemma extends_trans (s3 s2 s1 : State) :
  extends s3 s2 -> extends s2 s1 -> extends s3 s1.
Proof.
  induction 1 as [s | name value s' s H IH]; intros H1.
  - exact H1.
  - apply extends_frame. now apply IH.
Qed.

Lemma binds_set_value (s : State) (x y : string) (v : pyvalue) (t ty : Type_) :
  (forall v0 t0, get_value s y = Some (v0, t0) -> t0 = ty) ->
  binds s x t -> binds (set_value s y v ty) x t.
Proof.
  intros Hy [vx Hx]. unfold binds. simpl.
  destruct (String.eqb_spec x y) as [E | _].
  - subst y. rewrite (Hy _ _ Hx). now exists v.
  - now exists vx.
Qed.

Section StateOrder.

(** A reflexive and transitive relation [R s' s] between a later state and
    an earlier one, which holds of every binding that the [Assign] case may
    add: one whose name is absent, or bound at the type of the new value. *)
Variable R : State -> State -> Prop.
Hypothesis R_refl : forall s, R s s.
Hypothesis R_trans : forall s3 s2 s1, R s3 s2 -> R s2 s1 -> R s3 s1.
Hypothesis R_assign : forall s x v t,
  (forall v0 t0, get_value s x = Some (v0, t0) -> t0 = t) ->
  R (set_value s x v t) s.

Section Loops.

Variable ev : Expr -> State -> M Result.
Hypothesis ev_R : forall e s, ensures (fun r => R (snd r) s) (fun _ => True) (ev e s).

Lemma for_exprs_order (exprs : list Expr) :
  forall acc s, R (snd acc) s ->
    ensures (fun r => R (snd r) s) (fun _ => True) (for_exprs ev exprs acc).
Proof.
  induction exprs as [| e rest IH]; intros [[v t] s1] s Hs; simpl.
  - now apply ensures_ret.
  - eapply ensures_bind; [apply ev_R |].
    intros acc' Hacc. apply IH. simpl in *. eauto.
Qed.

Lemma while_loop_order (n : nat) :
  forall condition body result cond_type s1 s, R s1 s ->
    ensures (fun r => R (snd r) s) (fun _ => True)
      (while_loop ev n condition body result cond_type s1).
Proof.
  induction n as [| n IH]; intros c b result ct s1 s Hs; simpl;
    destruct (truthy result); try (now apply ensures_ret).
  - now apply ensures_raise.
  - eapply ensures_bind; [apply ev_R |]. intros [[v2 t2] s2] H2.
    eapply ensures_bind; [apply ev_R |]. intros [[v3 t3] s3] H3.
    simpl in *.
    destruct t3; try (now apply ensures_raise).
    apply IH. eauto.
Qed.

End Loops.

Ltac order_fin := solve [ exact I | simpl in *; eauto ].

Lemma evaluate_order (n : nat) :
  forall e s, ensures (fun r => R (snd r) s) (fun _ => True) (evaluate n e s).
Proof.
  induction n as [| n IH]; intros e s.
  - now apply ensures_raise.
  - destruct e; simpl;
      try (ens_leaves order_fin; fail);
      try (eapply ensures_bind; [apply IH |]; intros [[lv lt] s1] H1;
           eapply ensures_bind; [apply IH |]; intros [[rv rt] s2] H2;
           ens_leaves order_fin; fail);
      try (eapply ensures_bind; [apply IH |]; intros [[lv lt] s1] H1;
           ens_leaves order_fin; fail).
    + eapply ensures_bind; [apply IH |]. intros acc Hacc.
      now apply for_exprs_order.
    + eapply ensures_bind; [apply IH |]. intros acc Hacc.
      now apply for_exprs_order.
    + eapply ensures_bind; [apply IH |]. intros [[v t] s1] H1. simpl in H1.
      destruct (get_value s1 variable) as [[v0 t0] |] eqn:G.
      * destruct (Type_eqb t t0) eqn:T; simpl.
        -- apply ensures_ret. simpl. apply (R_trans _ s1); [| exact H1].
           apply R_assign. intros v1 t1 E. apply Type_eqb_eq in T. congruence.
        -- now apply ensures_raise.
      * apply ensures_ret. simpl. apply (R_trans _ s1); [| exact H1].
        apply R_assign. intros v1 t1 E. congruence.
    + eapply ensures_bind; [apply IH |]. intros [[v t] s1] H1.
      destruct t; try (now apply ensures_raise).
      destruct (truthy v);
        (intros out r out' X; pose proof (IH _ _ _ _ _ X) as Y;
         destruct r; [| exact I]; order_fin).
    + eapply ensures_bind; [apply IH |]. intros [[v t] s1] H1.
      destruct t; try (now apply ensures_raise).
      now apply while_loop_order.
Qed.

End StateOrder.

(** X1. The chain only grows: the state that an evaluation returns is the
    state it was given, under the frames that it has added; no frame is
    removed or replaced. *)
Theorem chain_only_grows (e : Expr) (s : State) (out : list line)
  (v : pyvalue) (t : Type_) (s' : State) (out' : list line) :
  evaluates e s out (Ok (v, t, s')) out' -> extends s' s.
Proof.
  intros [n [H _]].
  exact (evaluate_order extends extends_refl extends_trans
           (fun s x v t _ => extends_frame x (v, t) s s (extends_refl s))
           n e s out _ out' H).
Qed.

Lemma chain_only_grows_witness :
  extends (set_value (set_value EmptyState "x" (PyInt 1) Integer) "x" (PyInt 2) Integer)
          (set_value EmptyState "x" (PyInt 1) Integer).
Proof.
  apply (chain_only_grows (Assign "x" (IntLiteral 2))
           (set_value EmptyState "x" (PyInt 1) Integer) [] (PyInt 2) Integer _ []).
  exists 2%nat. split; [reflexivity | discriminate].
Defined.

(** X2. The type of a variable is fixed: a name bound at type [t] before an
    evaluation is bound at type [t] in the state that the evaluation
    returns, whatever assignments were made on the way. *)
Theorem variable_type_is_fixed (e : Expr) (s : State) (out : list line)
  (v : pyvalue) (t : Type_) (s' : State) (out' : list line)
  (x : string) (tx : Type_) :
  evaluates e s out (Ok (v, t, s')) out' -> binds s x tx -> binds s' x tx.
Proof.
  intros [n [H _]] Hx.
  refine (evaluate_order (fun s' s => forall y ty, binds s y ty -> binds s' y ty)
            _ _ _ n e s out _ out' H x tx Hx).
  - intros s0 y ty Hb. exact Hb.
  - intros s3 s2 s1 H32 H21 y ty Hb. apply H32. now apply H21.
  - intros s0 y v0 t0 Hy z tz Hb. now apply binds_set_value.
Qed.

Lemma variable_type_is_fixed_witness :
  binds (set_value (set_value EmptyState "x" (PyInt 1) Integer) "y" (PyBool true) Boolean)
        "x" Integer.
Proof.
  apply (variable_type_is_fixed (Assign "y" (BooleanLiteral true))
           (set_value EmptyState "x" (PyInt 1) Integer) [] (PyBool true) Boolean _ []
           "x" Integer).
  - exists 2%nat. split; [reflexivity | discriminate].
  - exists (PyInt 1). reflexivity.
Defined.

(** X3. Values carry their own tag: from a state in which every bound value
    is of the Python class that its type announces, an evaluation returns a
    value of the class of its type ([None] at Unit, an [int] at Integer, a
    [bool] at Boolean, ...) and a state with the same property, and it never
    applies a host operator to operands of another class. *)
Theorem results_carry_their_tag (e : Expr) (s : State) (out : list line)
  (r : outcome Result) (out' : list line) :
  state_tagged s ->
  evaluates e s out r out' ->
  match r with
  | Ok (v, t, s') => well_tagged v t /\ state_tagged s'
  | Raise err => err <> HostMismatch
  end.
Proof.
  intros Hs [n [H _]].
  pose proof (evaluate_tag_sound n e s Hs out r out' H) as X.
  destruct r as [[[v t] s'] | err]; exact X.
Qed.

Lemma results_carry_their_tag_witness :
  well_tagged (PyInt 3) Integer /\
  state_tagged (set_value EmptyState "x" (PyInt 3) Integer).
Proof.
  apply (results_carry_their_tag
           (Sequence [Assign "x" (Add (IntLiteral 1) (IntLiteral 2)); Variable_ "x"])
           EmptyState []
           (Ok (PyInt 3, Integer, set_value EmptyState "x" (PyInt 3) Integer)) []).
  - exact I.
  - exists 4%nat. split; [reflexivity | discriminate].
Defined.

(** ** Output *)

Lemma framed_ret {A : Type} (a : A) : framed (ret a).
Proof. intros out. unfold ret. simpl. now rewrite app_nil_r. Qed.

Lemma framed_raise {A : Type} (e : abort) : framed (@raise A e).
Proof. intros out. unfold raise. simpl. now rewrite app_nil_r. Qed.

Lemma framed_print (l : line) : framed (print l).
Proof. intros out. reflexivity. Qed.

Lemma framed_host {A : Type} (o : option A) : framed (host o).
Proof. destruct o; [apply framed_ret | apply framed_raise]. Qed.

Lemma framed_bind {A B : Type} (m : M A) (k : A -> M B) :
  framed m -> (forall a, framed (k a)) -> framed (bind m k).
Proof.
  intros Hm Hk out. unfold bind. rewrite (Hm out).
  destruct (m []) as [[a | e] o1]; simpl.
  - rewrite (Hk a (out ++ o1)%list), (Hk a o1). simpl.
    now rewrite app_assoc.
  - reflexivity.
Qed.

Ltac framed_leaves :=
  repeat first
    [ apply framed_ret
    | apply framed_raise
    | apply framed_print
    | apply framed_host
    | assumption
    | apply framed_bind; [| intros ]
    | match goal with
      | H : forall e s, framed (_ e s) |- framed (_ _ _) => apply H
      | |- framed (if ?b then _ else _) => destruct b
      | |- framed (match ?x with _ => _ end) => destruct x
      end ].

Section FramedLoops.

Variable ev : Expr -> State -> M Result.
Hypothesis ev_framed : forall e s, framed (ev e s).

Lemma for_exprs_framed (exprs : list Expr) :
  forall acc, framed (for_exprs ev exprs acc).
Proof.
  induction exprs as [| e rest IH]; intros [[v t] s]; simpl.
  - apply framed_ret.
  - apply framed_bind; [apply ev_framed | exact IH].
Qed.

Lemma while_loop_framed (n : nat) :
  forall condition body result cond_type new_state,
    framed (while_loop ev n condition body result cond_type new_state).
Proof.
  induction n as [| n IH]; intros c b result ct s; simpl;
    destruct (truthy result); try apply framed_ret; try apply framed_raise.
  apply framed_bind; [apply ev_framed |]. intros [[v1 t1] s1].
  apply framed_bind; [apply ev_framed |]. intros [[v2 t2] s2].
  destruct t2; try apply framed_raise. apply IH.
Qed.

End FramedLoops.

Lemma evaluate_framed (n : nat) : forall e s, framed (evaluate n e s).
Proof.
  induction n as [| n IH]; intros e s.
  - apply framed_raise.
  - destruct e; simpl; try (framed_leaves; fail).
    + apply framed_bind; [apply IH |]. intros acc. now apply for_exprs_framed.
    + apply framed_bind; [apply IH |]. intros acc. now apply for_exprs_framed.
    + apply framed_bind; [apply IH |]. intros [[v t] s1].
      destruct t; try apply framed_raise. now apply while_loop_framed.
Qed.


(** ** What an expression cannot do without the node for it *)

Ltac split_mentions :=
  repeat match goal with
         | H : (_ || _)%bool = false |- _ =>
             apply orb_false_elim in H; destruct H
         end.

Lemma mentions_children (p : Expr -> bool) (es : list Expr) (e : Expr) :
  existsb (mentions p) es = false -> In e es -> mentions p e = false.
Proof.
  intros H Hin. destruct (mentions p e) eqn:E; [| reflexivity].
  assert (X : existsb (mentions p) es = true)
    by (apply existsb_exists; now exists e).
  congruence.
Qed.

Section WithoutNode.

(** Expressions in which no node satisfies [p]; [R] relates the state given
    to the state returned and [E] holds of the exceptions raised, as soon as
    the three cases that assign, divide and read a variable respect them
    where [p] lets them through. *)
Variable p : Expr -> bool.
Variable R : State -> State -> Prop.
Variable E : abort -> Prop.
Hypothesis R_refl : forall s, R s s.
Hypothesis R_trans : forall s1 s2 s3, R s1 s2 -> R s2 s3 -> R s1 s3.
Hypothesis E_fuel : E OutOfFuel.
Hypothesis E_type : E InterpTypeError.
Hypothesis E_host : E HostMismatch.
Hypothesis assign_ok : forall x e s v t,
  p (Assign x e) = false -> R s (set_value s x v t).
Hypothesis divide_ok : forall l r, p (Divide l r) = false -> E InterpMathError.
Hypothesis variable_ok : forall x, p (Variable_ x) = false -> E InterpSyntaxError.

Section Loops.

Variable ev : Expr -> State -> M Result.
Hypothesis ev_ok : forall e s,
  mentions p e = false -> ensures (fun r => R s (snd r)) E (ev e s).

Lemma for_exprs_without (exprs : list Expr) :
  existsb (mentions p) exprs = false ->
  forall acc s, R s (snd acc) ->
    ensures (fun r => R s (snd r)) E (for_exprs ev exprs acc).
Proof.
  induction exprs as [| e rest IH]; intros Hm [[v t] s1] s Hs; simpl.
  - now apply ensures_ret.
  - simpl in Hm. split_mentions.
    eapply ensures_bind; [now apply ev_ok |].
    intros acc' Hacc. apply IH; [assumption |]. simpl in *. eauto.
Qed.

Lemma while_loop_without (n : nat) (condition body : Expr) :
  mentions p condition = false -> mentions p body = false ->
  forall result cond_type s1 s, R s s1 ->
    ensures (fun r => R s (snd r)) E
      (while_loop ev n condition body result cond_type s1).
Proof.
  intros Hc Hb.
  induction n as [| n IH]; intros result ct s1 s Hs; simpl;
    destruct (truthy result); try (now apply ensures_ret).
  - now apply ensures_raise.
  - eapply ensures_bind; [now apply ev_ok |]. intros [[v2 t2] s2] H2.
    eapply ensures_bind; [now apply ev_ok |]. intros [[v3 t3] s3] H3.
    simpl in *.
    destruct t3; try (now apply ensures_raise).
    apply IH. eauto.
Qed.

End Loops.

Ltac without_fin := solve [ assumption | simpl in *; eauto ].

Lemma evaluate_Ren_without (n : nat) (s : State) :
  ensures (fun r => R s (snd r)) E (evaluate n Ren s).
Proof.
  destruct n; simpl; [now apply ensures_raise | now apply ensures_ret].
Qed.

Lemma evaluate_without (n : nat) :
  forall e s, mentions p e = false ->
    ensures (fun r => R s (snd r)) E (evaluate n e s).
Proof.
  induction n as [| n IH]; intros e s Hm.
  - now apply ensures_raise.
  - destruct e; simpl in Hm; split_mentions; simpl;
      try (ens_leaves without_fin; fail);
      try (eapply ensures_bind; [now apply IH |]; intros [[? ?] ?] ?;
           eapply ensures_bind; [now apply IH |]; intros [[? ?] ?] ?;
           ens_leaves without_fin; fail);
      try (eapply ensures_bind; [now apply IH |]; intros [[? ?] ?] ?;
           ens_leaves without_fin; fail).
    + eapply ensures_bind; [apply evaluate_Ren_without |]. intros acc Hacc.
      now apply for_exprs_without.
    + eapply ensures_bind; [apply evaluate_Ren_without |]. intros acc Hacc.
      now apply for_exprs_without.
    + eapply ensures_bind; [now apply IH |]. intros [[v t] s1] Hs1. simpl in Hs1.
      destruct t; try (now apply ensures_raise).
      destruct (truthy v);
        (intros out r out' X;
         match type of X with
         | evaluate _ ?b _ _ = _ =>
             assert (Hb : mentions p b = false) by assumption;
             pose proof (IH _ _ Hb _ _ _ X) as Y
         end;
         destruct r; [| exact Y]; without_fin).
    + eapply ensures_bind; [now apply IH |]. intros [[v t] s1] Hs1. simpl in Hs1.
      destruct t; try (now apply ensures_raise).
      now apply while_loop_without.
Qed.

End WithoutNode.

(** X5. An expression without an [Assign] node returns the state it was
    given: only assignment changes the chain. *)
Theorem pure_expression_keeps_state (e : Expr) (s : State) (out : list line)
  (v : pyvalue) (t : Type_) (s' : State) (out' : list line) :
  mentions is_Assign e = false ->
  evaluates e s out (Ok (v, t, s')) out' -> s' = s.
Proof.
  intros Hm [n [H _]].
  refine (evaluate_without is_Assign (fun s s' => s' = s) (fun _ => True)
            _ _ I I I _ _ _ n e s Hm out _ out' H).
  - reflexivity.
  - intros s1 s2 s3 H12 H23. congruence.
  - intros x e0 s0 v0 t0 X. discriminate X.
  - intros; exact I.
  - intros; exact I.
Qed.

Lemma pure_expression_keeps_state_witness :
  mentions is_Assign
    (While (Lt (Variable_ "x") (IntLiteral 0)) (Print (Variable_ "x"))) = false /\
  evaluates (While (Lt (Variable_ "x") (IntLiteral 0)) (Print (Variable_ "x")))
    (set_value EmptyState "x" (PyInt 1) Integer) []
    (Ok (PyBool false, Boolean, set_value EmptyState "x" (PyInt 1) Integer)) [] /\
  set_value EmptyState "x" (PyInt 1) Integer
  = set_value EmptyState "x" (PyInt 1) Integer.
Proof.
  assert (Hm : mentions is_Assign
                 (While (Lt (Variable_ "x") (IntLiteral 0)) (Print (Variable_ "x")))
               = false) by reflexivity.
  assert (He : evaluates
                 (While (Lt (Variable_ "x") (IntLiteral 0)) (Print (Variable_ "x")))
                 (set_value EmptyState "x" (PyInt 1) Integer) []
                 (Ok (PyBool false, Boolean,
                      set_value EmptyState "x" (PyInt 1) Integer)) [])
    by (exists 3%nat; split; [reflexivity | discriminate]).
  split; [exact Hm |]. split; [exact He |].
  exact (pure_expression_keeps_state _ _ _ _ _ _ _ Hm He).
Defined.



(** ** Expressions that print nothing *)

Lemma silent_ret {A : Type} (a : A) : silent (ret a).
Proof. intros out r out' X. unfold ret in X. now inversion X. Qed.

Lemma silent_raise {A : Type} (e : abort) : silent (@raise A e).
Proof. intros out r out' X. unfold raise in X. now inversion X. Qed.

Lemma silent_host {A : Type} (o : option A) : silent (host o).
Proof. destruct o; [apply silent_ret | apply silent_raise]. Qed.

Lemma silent_bind {A B : Type} (m : M A) (k : A -> M B) :
  silent m -> (forall a, silent (k a)) -> silent (bind m k).
Proof.
  intros Hm Hk out r out' X. unfold bind in X.
  destruct (m out) as [[a | e] o1] eqn:Em.
  - rewrite (Hk a _ _ _ X). exact (Hm _ _ _ Em).
  - inversion X; subst. exact (Hm _ _ _ Em).
Qed.

Ltac silent_leaves :=
  repeat first
    [ apply silent_ret
    | apply silent_raise
    | apply silent_host
    | apply silent_bind; [| intros ]
    | match goal with
      | H : forall e s, mentions is_Print e = false -> silent (_ e s)
        |- silent (_ _ _) => apply H; assumption
      | |- silent (if ?b then _ else _) => destruct b
      | |- silent (match ?x with _ => _ end) => destruct x
      end ].

Section SilentLoops.

Variable ev : Expr -> State -> M Result.
Hypothesis ev_silent : forall e s, mentions is_Print e = false -> silent (ev e s).

Lemma for_exprs_silent (exprs : list Expr) :
  existsb (mentions is_Print) exprs = false ->
  forall acc, silent (for_exprs ev exprs acc).
Proof.
  induction exprs as [| e rest IH]; intros Hm [[v t] s]; simpl.
  - apply silent_ret.
  - simpl in Hm. split_mentions.
    apply silent_bind; [now apply ev_silent | now apply IH].
Qed.

Lemma while_loop_silent (n : nat) (condition body : Expr) :
  mentions is_Print condition = false -> mentions is_Print body = false ->
  forall result cond_type new_state,
    silent (while_loop ev n condition body result cond_type new_state).
Proof.
  intros Hc Hb.
  induction n as [| n IH]; intros result ct s; simpl;
    destruct (truthy result); try apply silent_ret; try apply silent_raise.
  apply silent_bind; [now apply ev_silent |]. intros [[v1 t1] s1].
  apply silent_bind; [now apply ev_silent |]. intros [[v2 t2] s2].
  destruct t2; try apply silent_raise. apply IH.
Qed.

End SilentLoops.

Lemma evaluate_silent (n : nat) :
  forall e s, mentions is_Print e = false -> silent (evaluate n e s).
Proof.
  induction n as [| n IH]; intros e s Hm.
  - apply silent_raise.
  - destruct e; simpl in Hm; try discriminate Hm; split_mentions; simpl;
      try (silent_leaves; fail).
    + apply silent_bind; [now apply IH |]. intros acc. now apply for_exprs_silent.
    + apply silent_bind; [now apply IH |]. intros acc. now apply for_exprs_silent.
    + apply silent_bind; [now apply IH |]. intros [[v t] s1].
      destruct t; try apply silent_raise. now apply while_loop_silent.
Qed.

(** X7. An expression without a [Print] node writes nothing: its output is
    the output it was given, whether it returns or raises. *)
Theorem no_print_no_output (e : Expr) (s : State) (out : list line)
  (r : outcome Result) (out' : list line) :
  mentions is_Print e = false ->
  evaluates e s out r out' -> out' = out.
Proof.
  intros Hm [n [H _]]. exact (evaluate_silent n e s Hm out r out' H).
Qed.

Lemma no_print_no_output_witness :
  mentions is_Print (Assign "x" (Divide (IntLiteral 1) (IntLiteral 0))) = false /\
  evaluates (Assign "x" (Divide (IntLiteral 1) (IntLiteral 0)))
    EmptyState [Formatted (PyInt 0)] (Raise InterpMathError) [Formatted (PyInt 0)] /\
  [Formatted (PyInt 0)] = [Formatted (PyInt 0)].
Proof.
  assert (Hm : mentions is_Print (Assign "x" (Divide (IntLiteral 1) (IntLiteral 0)))
               = false) by reflexivity.
  assert (He : evaluates (Assign "x" (Divide (IntLiteral 1) (IntLiteral 0)))
                 EmptyState [Formatted (PyInt 0)] (Raise InterpMathError)
                 [Formatted (PyInt 0)])
    by (exists 3%nat; split; [reflexivity | discriminate]).
  split; [exact Hm |]. split; [exact He |].
  exact (no_print_no_output _ _ _ _ _ Hm He).
Defined.

(** ** Binary nodes: operand types and exceptions of operands *)

Ltac each_binary_node Hin :=
  unfold binary_nodes in Hin; simpl in Hin;
  repeat (destruct Hin as [<- | Hin]); try contradiction.

(** X8. Operands of different types: once both operands have been
    evaluated, each of the twelve binary nodes fails with the type error
    when the type of the left one is not the type of the right one. *)
Theorem binary_type_mismatch (l r node : Expr) (s : State) (out : list line)
  (vl vr : pyvalue) (tl tr : Type_) (s1 s2 : State) (o1 o2 : list line) :
  evaluates l s out (Ok (vl, tl, s1)) o1 ->
  evaluates r s1 o1 (Ok (vr, tr, s2)) o2 ->
  tl <> tr ->
  In node (binary_nodes l r) ->
  evaluates node s out (Raise InterpTypeError) o2.
Proof.
  intros Hl Hr Hne Hin. apply Type_eqb_neq in Hne.
  each_binary_node Hin; replay2 Hl Hr; rewrite Hne; reflexivity.
Qed.

Lemma binary_type_mismatch_witness :
  evaluates (Eq (IntLiteral 1) (FloatingPointLiteral 1)) EmptyState []
    (Raise InterpTypeError) [].
Proof.
  apply (binary_type_mismatch (IntLiteral 1) (FloatingPointLiteral 1) _ EmptyState []
           (PyInt 1) (PyFloat 1) Integer FloatingPoint EmptyState EmptyState [] []).
  - exists 1%nat. split; [reflexivity | discriminate].
  - exists 1%nat. split; [reflexivity | discriminate].
  - discriminate.
  - unfold binary_nodes. simpl. tauto.
Defined.

(** X9. Exceptions are not caught: a binary node whose left operand raises
    an exception raises it, with the output of that operand and without
    evaluating the right operand; and when the left operand returns and the
    right one raises, the node raises the exception of the right one. *)
Theorem binary_operand_exception (l r node : Expr) (s : State) (out : list line)
  (err : abort) :
  In node (binary_nodes l r) ->
  (forall o1, evaluates l s out (Raise err) o1 ->
     evaluates node s out (Raise err) o1) /\
  (forall vl tl s1 o1 o2,
     evaluates l s out (Ok (vl, tl, s1)) o1 ->
     evaluates r s1 o1 (Raise err) o2 ->
     evaluates node s out (Raise err) o2).
Proof.
  intros Hin. split.
  - intros o1 [n [H N]].
    each_binary_node Hin; (exists (S n); split; [| exact N]);
      simpl; unfold bind; rewrite H; reflexivity.
  - intros vl tl s1 o1 o2 Hl Hr.
    destruct (evaluates_fuel _ _ _ _ _ Hl) as [n1 F1].
    destruct (evaluates_fuel _ _ _ _ _ Hr) as [n2 F2].
    destruct Hr as [_ [_ N]].
    each_binary_node Hin; (exists (S (Nat.max n1 n2)); split; [| exact N]);
      simpl; unfold bind; rewrite F1 by lia; rewrite F2 by lia; reflexivity.
Qed.

Lemma binary_operand_exception_witness :
  evaluates (And (Variable_ "x") (Print (IntLiteral 1))) EmptyState []
    (Raise InterpSyntaxError) [] /\
  evaluates (Add (Print (IntLiteral 1)) (Divide (IntLiteral 1) (IntLiteral 0)))
    EmptyState [] (Raise InterpMathError) [Formatted (PyInt 1)].
Proof.
  split.
  - apply (proj1 (binary_operand_exception (Variable_ "x") (Print (IntLiteral 1))
                    (And (Variable_ "x") (Print (IntLiteral 1))) EmptyState []
                    InterpSyntaxError ltac:(unfold binary_nodes; simpl; tauto))).
    exists 1%nat. split; [reflexivity | discriminate].
  - apply (proj2 (binary_operand_exception (Print (IntLiteral 1))
                    (Divide (IntLiteral 1) (IntLiteral 0))
                    (Add (Print (IntLiteral 1)) (Divide (IntLiteral 1) (IntLiteral 0)))
                    EmptyState [] InterpMathError
                    ltac:(unfold binary_nodes; simpl; tauto))
             (PyInt 1) Integer EmptyState [Formatted (PyInt 1)]).
    + exists 2%nat. split; [reflexivity | discriminate].
    + exists 2%nat. split; [reflexivity | discriminate].
Defined.

(** ** More on Sequence and Program *)

(** The loop over [es ++ e :: rest] after the children [es] have run. *)
Lemma for_exprs_prefix (es : list Expr) (s : State) (out : list line)
  (s1 : State) (o1 : list line) :
  threaded es s out s1 o1 ->
  exists n : nat, forall m : nat, (n <= m)%nat ->
  forall (e : Expr) (rest : list Expr) (v : pyvalue) (t : Type_),
    for_exprs (evaluate m) (es ++ e :: rest) (v, t, s) out
    = for_exprs (evaluate m) (e :: rest) (PyNone, Unit, s1) o1.
Proof.
  induction 1 as [s out | e0 es s out v0 t0 s1 o1 s2 o2 He Hes [n Hn]].
  - exists 0%nat. intros m _ e rest v t. reflexivity.
  - destruct (evaluates_fuel _ _ _ _ _ He) as [n0 F0].
    exists (Nat.max n n0). intros m Hm e rest v t.
    change ((e0 :: es) ++ e :: rest)%list with (e0 :: (es ++ e :: rest))%list.
    rewrite (for_exprs_cons _ _ _ _ _ _ _ (v0, t0, s1) o1) by (apply F0; lia).
    apply Hn. lia.
Qed.

(** X10. A sequence can be cut after any prefix of its children that runs
    without an exception: what is left of [Sequence (es ++ e :: rest)] after
    [es] is [Sequence (e :: rest)] from the state and output to which [es]
    have led; and likewise for [Program]. *)
Theorem sequence_splits (es : list Expr) (e : Expr) (rest : list Expr)
  (s : State) (out : list line) (s1 : State) (o1 : list line)
  (r : outcome Result) (o' : list line) :
  threaded es s out s1 o1 ->
  (evaluates (Sequence (es ++ e :: rest)) s out r o' <->
   evaluates (Sequence (e :: rest)) s1 o1 r o') /\
  (evaluates (Program (es ++ e :: rest)) s out r o' <->
   evaluates (Program (e :: rest)) s1 o1 r o').
Proof.
  intros Hes. destruct (for_exprs_prefix _ _ _ _ _ Hes) as [n Hn].
  split; split; intros [k [H N]];
    pose proof (evaluate_mono k (S (S (Nat.max n k))) ltac:(lia) _ _ _ _ _ H N) as H';
    exists (S (S (Nat.max n k))); (split; [| exact N]).
  - rewrite evaluate_Sequence in *. now rewrite Hn in H' by lia.
  - rewrite evaluate_Sequence in *. now rewrite Hn by lia.
  - rewrite evaluate_Program in *. now rewrite Hn in H' by lia.
  - rewrite evaluate_Program in *. now rewrite Hn by lia.
Qed.

Lemma sequence_splits_witness :
  evaluates (Sequence ([Assign "x" (IntLiteral 1)] ++ Variable_ "x" :: [])) EmptyState []
    (Ok (PyInt 1, Integer, set_value EmptyState "x" (PyInt 1) Integer)) [].
Proof.
  apply (proj1 (sequence_splits [Assign "x" (IntLiteral 1)] (Variable_ "x") []
                  EmptyState [] (set_value EmptyState "x" (PyInt 1) Integer) []
                  (Ok (PyInt 1, Integer, set_value EmptyState "x" (PyInt 1) Integer)) []
                  (threaded_cons _ _ _ _ (PyInt 1) Integer _ [] _ _
                     (evaluates_intro 2 (Assign "x" (IntLiteral 1)) EmptyState []
                        (PyInt 1, Integer, set_value EmptyState "x" (PyInt 1) Integer)
                        [] eq_refl)
                     (threaded_nil _ _)))).
  exists 2%nat. split; [reflexivity | discriminate].
Defined.

(** X11. A sequence stops at the first child that raises: after children
    that run without an exception, the exception of the next child is the
    outcome of the Sequence or Program, with the output printed so far, and
    no later child is evaluated. *)
Theorem sequence_stops_at_exception (es : list Expr) (e : Expr) (rest : list Expr)
  (s : State) (out : list line) (s1 : State) (o1 : list line)
  (err : abort) (o2 : list line) :
  threaded es s out s1 o1 ->
  evaluates e s1 o1 (Raise err) o2 ->
  evaluates (Sequence (es ++ e :: rest)) s out (Raise err) o2 /\
  evaluates (Program (es ++ e :: rest)) s out (Raise err) o2.
Proof.
  intros Hes [k [H N]].
  destruct (for_exprs_prefix _ _ _ _ _ Hes) as [n Hn].
  pose proof (evaluate_mono k (S (Nat.max n k)) ltac:(lia) _ _ _ _ _ H N) as H'.
  split; exists (S (S (Nat.max n k))); (split; [| exact N]).
  - rewrite evaluate_Sequence, Hn by lia. cbn [for_exprs]. unfold bind.
    now rewrite H'.
  - rewrite evaluate_Program, Hn by lia. cbn [for_exprs]. unfold bind.
    now rewrite H'.
Qed.

Lemma sequence_stops_at_exception_witness :
  evaluates
    (Sequence ([Print (IntLiteral 1)]
               ++ Variable_ "x" :: [Print (IntLiteral 2)])) EmptyState []
    (Raise InterpSyntaxError) [Formatted (PyInt 1)].
Proof.
  apply (sequence_stops_at_exception [Print (IntLiteral 1)] (Variable_ "x")
           [Print (IntLiteral 2)] EmptyState [] EmptyState [Formatted (PyInt 1)]
           InterpSyntaxError [Formatted (PyInt 1)]).
  - apply (threaded_cons _ _ _ _ (PyInt 1) Integer EmptyState [Formatted (PyInt 1)]).
    + exists 2%nat. split; [reflexivity | discriminate].
    + apply threaded_nil.
  - exists 1%nat. split; [reflexivity | discriminate].
Defined.

(** ** Print, the logical nodes and conditions *)

(** X12. [Print] is transparent: it returns the value, type and state of
    its operand, and appends one line to the output of the operand, the text
    [Unit] for a value of type Unit and the value formatted otherwise; when
    the operand raises, nothing is printed and the exception goes on. *)
Theorem print_is_transparent (e : Expr) (s : State) (out : list line) :
  (forall v t s' o1,
     evaluates e s out (Ok (v, t, s')) o1 ->
     evaluates (Print e) s out (Ok (v, t, s')) (o1 ++ [printed_line v t])) /\
  (forall err o1,
     evaluates e s out (Raise err) o1 ->
     evaluates (Print e) s out (Raise err) o1).
Proof.
  split.
  - intros v t s' o1 He. replay1 He. now destruct t.
  - intros err o1 [n [H N]]. exists (S n). split; [| exact N].
    simpl. unfold bind. now rewrite H.
Qed.

Lemma print_is_transparent_witness :
  evaluates (Print Ren) EmptyState [] (Ok (PyNone, Unit, EmptyState)) [Text "Unit"] /\
  evaluates (Print (Variable_ "x")) EmptyState [] (Raise InterpSyntaxError) [].
Proof.
  split.
  - apply (proj1 (print_is_transparent Ren EmptyState []) PyNone Unit EmptyState []).
    exists 1%nat. split; [reflexivity | discriminate].
  - apply (proj2 (print_is_transparent (Variable_ "x") EmptyState [])
             InterpSyntaxError []).
    exists 1%nat. split; [reflexivity | discriminate].
Defined.

(** X13. [And] and [Or] evaluate both operands: on two Boolean operands
    they return the conjunction and the disjunction, at type Boolean, with
    the state and the output left by the right operand, also when the left
    operand alone decides the result; on two operands of one other type they
    fail with the type error. *)
Theorem and_or_evaluate_both (l r : Expr) (s : State) (out : list line)
  (s1 s2 : State) (o1 o2 : list line) :
  (forall bl br,
     evaluates l s out (Ok (PyBool bl, Boolean, s1)) o1 ->
     evaluates r s1 o1 (Ok (PyBool br, Boolean, s2)) o2 ->
     evaluates (And l r) s out (Ok (PyBool (bl && br), Boolean, s2)) o2 /\
     evaluates (Or l r) s out (Ok (PyBool (bl || br), Boolean, s2)) o2) /\
  (forall vl vr t,
     evaluates l s out (Ok (vl, t, s1)) o1 ->
     evaluates r s1 o1 (Ok (vr, t, s2)) o2 ->
     t <> Boolean ->
     evaluates (And l r) s out (Raise InterpTypeError) o2 /\
     evaluates (Or l r) s out (Raise InterpTypeError) o2).
Proof.
  split.
  - intros bl br Hl Hr. split; replay2 Hl Hr; now destruct bl.
  - intros vl vr t Hl Hr Ht.
    split; replay2 Hl Hr; rewrite Type_eqb_refl; destruct t;
      try reflexivity; contradiction.
Qed.

Lemma and_or_evaluate_both_witness :
  evaluates (And (BooleanLiteral false) (Print (BooleanLiteral true))) EmptyState []
    (Ok (PyBool false, Boolean, EmptyState)) [Formatted (PyBool true)] /\
  evaluates (Or (IntLiteral 1) (IntLiteral 0)) EmptyState []
    (Raise InterpTypeError) [].
Proof.
  split.
  - apply (proj1 (and_or_evaluate_both (BooleanLiteral false)
                    (Print (BooleanLiteral true)) EmptyState []
                    EmptyState EmptyState [] [Formatted (PyBool true)])
             false true).
    + exists 1%nat. split; [reflexivity | discriminate].
    + exists 2%nat. split; [reflexivity | discriminate].
  - apply (proj2 (and_or_evaluate_both (IntLiteral 1) (IntLiteral 0) EmptyState []
                    EmptyState EmptyState [] [])
             (PyInt 1) (PyInt 0) Integer).
    + exists 1%nat. split; [reflexivity | discriminate].
    + exists 1%nat. split; [reflexivity | discriminate].
    + discriminate.
Defined.

(** X14. [Not] negates a Boolean and keeps the type, the state and the
    output of its operand; two of them give the operand back; an operand of
    another type is a type error. *)
Theorem not_negates (e : Expr) (s : State) (out : list line)
  (s' : State) (o1 : list line) :
  (forall b,
     evaluates e s out (Ok (PyBool b, Boolean, s')) o1 ->
     evaluates (Not e) s out (Ok (PyBool (negb b), Boolean, s')) o1 /\
     evaluates (Not (Not e)) s out (Ok (PyBool b, Boolean, s')) o1) /\
  (forall v t,
     evaluates e s out (Ok (v, t, s')) o1 ->
     t <> Boolean ->
     evaluates (Not e) s out (Raise InterpTypeError) o1).
Proof.
  split.
  - intros b He.
    assert (H1 : evaluates (Not e) s out (Ok (PyBool (negb b), Boolean, s')) o1)
      by (replay1 He; reflexivity).
    split; [exact H1 |].
    replay1 H1. unfold py_not. simpl. now rewrite negb_involutive.
  - intros v t He Ht. replay1 He. destruct t; try reflexivity; contradiction.
Qed.

Lemma not_negates_witness :
  evaluates (Not (BooleanLiteral true)) EmptyState []
    (Ok (PyBool false, Boolean, EmptyState)) [] /\
  evaluates (Not Ren) EmptyState [] (Raise InterpTypeError) [].
Proof.
  split.
  - apply (proj1 (not_negates (BooleanLiteral true) EmptyState [] EmptyState []) true).
    exists 1%nat. split; [reflexivity | discriminate].
  - apply (proj2 (not_negates Ren EmptyState [] EmptyState []) PyNone Unit).
    + exists 1%nat. split; [reflexivity | discriminate].
    + discriminate.
Defined.

(** X15. Conditions must be Boolean: when the condition of an [If] or of a
    [While] returns a value of another type, the node fails with the type
    error, with the state changes and output of the condition only; no
    branch and no body is evaluated. *)
Theorem condition_must_be_boolean (c a b : Expr) (s : State) (out : list line)
  (v : pyvalue) (t : Type_) (s1 : State) (o1 : list line) :
  evaluates c s out (Ok (v, t, s1)) o1 ->
  t <> Boolean ->
  evaluates (If c a b) s out (Raise InterpTypeError) o1 /\
  evaluates (While c b) s out (Raise InterpTypeError) o1.
Proof.
  intros Hc Ht.
  split; replay1 Hc; destruct t; try reflexivity; contradiction.
Qed.

Lemma condition_must_be_boolean_witness :
  evaluates (If (IntLiteral 1) (Print Ren) (Print Ren)) EmptyState []
    (Raise InterpTypeError) [] /\
  evaluates (While (IntLiteral 1) (Print Ren)) EmptyState []
    (Raise InterpTypeError) [].
Proof.
  apply (condition_must_be_boolean (IntLiteral 1) (Print Ren) (Print Ren)
           EmptyState [] (PyInt 1) Integer EmptyState []).
  - exists 1%nat. split; [reflexivity | discriminate].
  - discriminate.
Defined.

(** ** While *)

Lemma while_loop_ends_false (ev : Expr -> State -> M Result) (n : nat) :
  forall condition body result new_state,
    ensures (fun r => truthy (fst (fst r)) = false /\ snd (fst r) = Boolean)
      (fun _ => True)
      (while_loop ev n condition body result Boolean new_state).
Proof.
  induction n as [| n IH]; intros c b result s; simpl;
    destruct (truthy result) eqn:T; try (now apply ensures_ret).
  - now apply ensures_raise.
  - intros out r out' X. unfold bind in X.
    destruct (ev b s out) as [[[[v1 t1] s1] | e1] o1]; [| now inversion X].
    destruct (ev c s1 o1) as [[[[v2 t2] s2] | e2] o2]; [| now inversion X].
    destruct t2; try (unfold raise in X; now inversion X).
    exact (IH _ _ _ _ _ _ _ X).
Qed.

(** X16. The value of a loop: a [While] that returns has type Boolean and a
    value that is not true, the value of the condition that ended it; from a
    state whose values carry their tag this value is [False]. *)
Theorem while_returns_false (c b : Expr) (s : State) (out : list line)
  (v : pyvalue) (t : Type_) (s' : State) (out' : list line) :
  evaluates (While c b) s out (Ok (v, t, s')) out' ->
  t = Boolean /\ truthy v = false /\ (state_tagged s -> v = PyBool false).
Proof.
  intros Hw.
  assert (H : truthy v = false /\ t = Boolean).
  { destruct Hw as [n [H _]]. destruct n as [| n]; [discriminate H |].
    simpl in H. unfold bind in H.
    destruct (evaluate n c s out) as [[[[v1 t1] s1] | e1] o1]; [| discriminate H].
    destruct t1; try discriminate H.
    exact (while_loop_ends_false _ _ _ _ _ _ _ _ _ H). }
  destruct H as [Hv Ht]. repeat split; try assumption.
  intros Hs. destruct Hw as [n [H _]].
  pose proof (evaluate_tag_sound n (While c b) s Hs out _ out' H) as [Hw _].
  subst t. destruct v; simpl in Hw; try contradiction.
  simpl in Hv. now subst.
Qed.

Lemma while_returns_false_witness :
  evaluates (While (Not (Variable_ "x")) (Assign "x" (BooleanLiteral true)))
    (set_value EmptyState "x" (PyBool false) Boolean) []
    (Ok (PyBool false, Boolean,
         set_value (set_value EmptyState "x" (PyBool false) Boolean)
           "x" (PyBool true) Boolean)) [] /\
  Boolean = Boolean /\ truthy (PyBool false) = false /\
  (state_tagged (set_value EmptyState "x" (PyBool false) Boolean) ->
   PyBool false = PyBool false).
Proof.
  assert (He : evaluates
                 (While (Not (Variable_ "x")) (Assign "x" (BooleanLiteral true)))
                 (set_value EmptyState "x" (PyBool false) Boolean) []
                 (Ok (PyBool false, Boolean,
                      set_value (set_value EmptyState "x" (PyBool false) Boolean)
                        "x" (PyBool true) Boolean)) [])
    by (exists 4%nat; split; [reflexivity | discriminate]).
  split; [exact He |].
  exact (while_returns_false _ _ _ _ _ _ _ _ He).
Defined.

(** One more round of a loop about to run its body. *)
Lemma evaluate_While_round (n : nat) (c b : Expr) (s : State) (out : list line)
  (vc vb : pyvalue) (tb : Type_) (s1 s2 : State) (o1 o2 : list line) :
  evaluate (S n) c s out = (Ok (vc, Boolean, s1), o1) ->
  truthy vc = true ->
  evaluate (S n) b s1 o1 = (Ok (vb, tb, s2), o2) ->
  evaluate (S (S n)) (While c b) s out
  = bind (evaluate (S n) c s2)
      (fun x => let '(cond_result, cond_type, new_state) := x in
         match cond_type with
         | Boolean => while_loop (evaluate (S n)) n c b cond_result cond_type new_state
         | _ => raise InterpTypeError
         end) o2.
Proof.
  intros Hc Ht Hb. rewrite (evaluate_While _ _ _ _ _ _ _ _ Hc).
  cbn [while_loop]. rewrite Ht. unfold bind at 1. rewrite Hb. reflexivity.
Qed.

Lemma evaluate_While_unfold (n : nat) (c b : Expr) (s : State) (out : list line) :
  evaluate (S n) (While c b) s out
  = bind (evaluate n c s)
      (fun x => let '(cond_result, cond_type, new_state) := x in
         match cond_type with
         | Boolean => while_loop (evaluate n) n c b cond_result cond_type new_state
         | _ => raise InterpTypeError
         end) out.
Proof. reflexivity. Qed.

(** X17. A loop unrolls: with a condition that is false the loop returns the
    result of its condition and the body is not evaluated; with a condition
    that is true and a body that returns, the loop goes on as the same loop
    from the state and output left by the body. *)
Theorem while_unrolls (c b : Expr) (s : State) (out : list line)
  (vc : pyvalue) (s1 : State) (o1 : list line) :
  evaluates c s out (Ok (vc, Boolean, s1)) o1 ->
  (truthy vc = false ->
     evaluates (While c b) s out (Ok (vc, Boolean, s1)) o1) /\
  (truthy vc = true ->
     forall vb tb s2 o2,
       evaluates b s1 o1 (Ok (vb, tb, s2)) o2 ->
       forall r o',
         evaluates (While c b) s out r o' <-> evaluates (While c b) s2 o2 r o').
Proof.
  intros Hc. split.
  - intros Hf. replay1 Hc. destruct n; simpl; now rewrite Hf.
  - intros Ht vb tb s2 o2 Hb r o'.
    destruct (evaluates_fuel _ _ _ _ _ Hc) as [n1 F1].
    destruct (evaluates_fuel _ _ _ _ _ Hb) as [n2 F2].
    split; intros [k [H N]].
    + set (n := Nat.max k (Nat.max n1 n2)).
      pose proof (evaluate_mono k (S (S n)) ltac:(lia) _ _ _ _ _ H N) as H'.
      rewrite (evaluate_While_round n c b s out vc vb tb s1 s2 o1 o2) in H'
        by (try apply F1; try apply F2; try assumption; lia).
      exists (S (S n)). split; [| exact N].
      rewrite evaluate_While_unfold. unfold bind in *.
      destruct (evaluate (S n) c s2 o2) as [[[[v3 t3] s3] | e3] o3]; [| exact H'].
      destruct t3; try exact H'.
      apply (while_loop_mono (evaluate (S n)) (evaluate (S n))
               (fun e0 s0 => le_M_refl _) n (S n) ltac:(lia)); assumption.
    + set (n := Nat.max k (Nat.max n1 n2)).
      pose proof (evaluate_mono k (S n) ltac:(lia) _ _ _ _ _ H N) as H'.
      exists (S (S n)). split; [| exact N].
      rewrite (evaluate_While_round n c b s out vc vb tb s1 s2 o1 o2)
        by (try apply F1; try apply F2; try assumption; lia).
      rewrite evaluate_While_unfold in H'. unfold bind in *.
      destruct (evaluate n c s2 o2) as [[[[v3 t3] s3] | e3] o3] eqn:E3.
      * rewrite (evaluate_mono n (S n) ltac:(lia) _ _ _ _ _ E3) by discriminate.
        destruct t3; try exact H'.
        apply (while_loop_mono (evaluate n) (evaluate (S n))
                 (evaluate_mono n (S n) ltac:(lia)) n n ltac:(lia)); assumption.
      * inversion H'; subst.
        rewrite (evaluate_mono n (S n) ltac:(lia) _ _ _ _ _ E3) by exact N.
        reflexivity.
Qed.

Lemma while_unrolls_witness :
  evaluates (While (BooleanLiteral false) (Print Ren)) EmptyState []
    (Ok (PyBool false, Boolean, EmptyState)) [] /\
  (evaluates
     (While (Not (Variable_ "x")) (Assign "x" (BooleanLiteral true)))
     (set_value EmptyState "x" (PyBool false) Boolean) []
     (Ok (PyBool false, Boolean,
          set_value (set_value EmptyState "x" (PyBool false) Boolean)
            "x" (PyBool true) Boolean)) [] <->
   evaluates
     (While (Not (Variable_ "x")) (Assign "x" (BooleanLiteral true)))
     (set_value (set_value EmptyState "x" (PyBool false) Boolean)
        "x" (PyBool true) Boolean) []
     (Ok (PyBool false, Boolean,
          set_value (set_value EmptyState "x" (PyBool false) Boolean)
            "x" (PyBool true) Boolean)) []).
Proof.
  split.
  - apply (proj1 (while_unrolls (BooleanLiteral false) (Print Ren) EmptyState []
                    (PyBool false) EmptyState []
                    (evaluates_intro 1 (BooleanLiteral false) EmptyState []
                       (PyBool false, Boolean, EmptyState) [] eq_refl))).
    reflexivity.
  - apply (proj2 (while_unrolls (Not (Variable_ "x")) (Assign "x" (BooleanLiteral true))
                    (set_value EmptyState "x" (PyBool false) Boolean) []
                    (PyBool true) (set_value EmptyState "x" (PyBool false) Boolean) []
                    (evaluates_intro 2 (Not (Variable_ "x"))
                       (set_value EmptyState "x" (PyBool false) Boolean) []
                       (PyBool true, Boolean,
                        set_value EmptyState "x" (PyBool false) Boolean) [] eq_refl))
             eq_refl (PyBool true) Boolean
             (set_value (set_value EmptyState "x" (PyBool false) Boolean)
                "x" (PyBool true) Boolean) []).
    exists 2%nat. split; [reflexivity | discriminate].
Defined.

(** ** Arithmetic by operand type *)

(** X18. [Add] on two operands of one type: the sum of two integers, the
    concatenation of two strings, the sum of two floats, each at the type of
    the operands and with the state and output left by the right operand;
    the type error for two Booleans or two Unit values. *)
Theorem add_by_type (l r : Expr) (s : State) (out : list line)
  (s1 s2 : State) (o1 o2 : list line) :
  (forall a b : Z,
     evaluates l s out (Ok (PyInt a, Integer, s1)) o1 ->
     evaluates r s1 o1 (Ok (PyInt b, Integer, s2)) o2 ->
     evaluates (Add l r) s out (Ok (PyInt (a + b), Integer, s2)) o2) /\
  (forall a b : string,
     evaluates l s out (Ok (PyStr a, String, s1)) o1 ->
     evaluates r s1 o1 (Ok (PyStr b, String, s2)) o2 ->
     evaluates (Add l r) s out (Ok (PyStr (String.append a b), String, s2)) o2) /\
  (forall a b : float,
     evaluates l s out (Ok (PyFloat a, FloatingPoint, s1)) o1 ->
     evaluates r s1 o1 (Ok (PyFloat b, FloatingPoint, s2)) o2 ->
     evaluates (Add l r) s out (Ok (PyFloat (a + b)%float, FloatingPoint, s2)) o2) /\
  (forall vl vr t,
     evaluates l s out (Ok (vl, t, s1)) o1 ->
     evaluates r s1 o1 (Ok (vr, t, s2)) o2 ->
     t = Boolean \/ t = Unit ->
     evaluates (Add l r) s out (Raise InterpTypeError) o2).
Proof.
  split; [| split; [| split]].
  - intros a b Hl Hr. replay2 Hl Hr. reflexivity.
  - intros a b Hl Hr. replay2 Hl Hr. reflexivity.
  - intros a b Hl Hr. replay2 Hl Hr. reflexivity.
  - intros vl vr t Hl Hr [-> | ->]; replay2 Hl Hr; reflexivity.
Qed.

Lemma add_by_type_witness :
  evaluates (Add (StringLiteral "ab") (StringLiteral "c")) EmptyState []
    (Ok (PyStr "abc", String, EmptyState)) [] /\
  evaluates (Add (BooleanLiteral true) (BooleanLiteral true)) EmptyState []
    (Raise InterpTypeError) [].
Proof.
  pose proof (add_by_type (StringLiteral "ab") (StringLiteral "c") EmptyState []
                EmptyState EmptyState [] []) as [_ [Hs _]].
  pose proof (add_by_type (BooleanLiteral true) (BooleanLiteral true) EmptyState []
                EmptyState EmptyState [] []) as [_ [_ [_ Hb]]].
  split.
  - apply (Hs "ab" "c"); exists 1%nat; (split; [reflexivity | discriminate]).
  - apply (Hb (PyBool true) (PyBool true) Boolean);
      try (exists 1%nat; (split; [reflexivity | discriminate])).
    now left.
Defined.

(** X19. [Subtract] and [Multiply] on two operands of one type: the
    difference and the product of two integers or of two floats; the type
    error for two strings, two Booleans or two Unit values. *)
Theorem subtract_multiply_by_type (l r : Expr) (s : State) (out : list line)
  (s1 s2 : State) (o1 o2 : list line) :
  (forall a b : Z,
     evaluates l s out (Ok (PyInt a, Integer, s1)) o1 ->
     evaluates r s1 o1 (Ok (PyInt b, Integer, s2)) o2 ->
     evaluates (Subtract l r) s out (Ok (PyInt (a - b), Integer, s2)) o2 /\
     evaluates (Multiply l r) s out (Ok (PyInt (a * b), Integer, s2)) o2) /\
  (forall a b : float,
     evaluates l s out (Ok (PyFloat a, FloatingPoint, s1)) o1 ->
     evaluates r s1 o1 (Ok (PyFloat b, FloatingPoint, s2)) o2 ->
     evaluates (Subtract l r) s out (Ok (PyFloat (a - b)%float, FloatingPoint, s2)) o2 /\
     evaluates (Multiply l r) s out (Ok (PyFloat (a * b)%float, FloatingPoint, s2)) o2) /\
  (forall vl vr t,
     evaluates l s out (Ok (vl, t, s1)) o1 ->
     evaluates r s1 o1 (Ok (vr, t, s2)) o2 ->
     t <> Integer -> t <> FloatingPoint ->
     evaluates (Subtract l r) s out (Raise InterpTypeError) o2 /\
     evaluates (Multiply l r) s out (Raise InterpTypeError) o2).
Proof.
  split; [| split].
  - intros a b Hl Hr. split; replay2 Hl Hr; reflexivity.
  - intros a b Hl Hr. split; replay2 Hl Hr; reflexivity.
  - intros vl vr t Hl Hr Hi Hf.
    split; replay2 Hl Hr; rewrite Type_eqb_refl; destruct t;
      try reflexivity; contradiction.
Qed.

Lemma subtract_multiply_by_type_witness :
  evaluates (Subtract (IntLiteral 2) (IntLiteral 5)) EmptyState []
    (Ok (PyInt (-3), Integer, EmptyState)) [] /\
  evaluates (Multiply (StringLiteral "a") (StringLiteral "b")) EmptyState []
    (Raise InterpTypeError) [].
Proof.
  pose proof (subtract_multiply_by_type (IntLiteral 2) (IntLiteral 5) EmptyState []
                EmptyState EmptyState [] []) as [Hi _].
  pose proof (subtract_multiply_by_type (StringLiteral "a") (StringLiteral "b")
                EmptyState [] EmptyState EmptyState [] []) as [_ [_ Ht]].
  split.
  - apply (Hi 2 5); exists 1%nat; (split; [reflexivity | discriminate]).
  - apply (Ht (PyStr "a") (PyStr "b") String);
      try (exists 1%nat; (split; [reflexivity | discriminate]));
      discriminate.
Defined.

(** X20. [Divide] on floats and on strings: a float divisor equal to zero,
    [0.0] or [-0.0], gives the math error; any other float divisor gives the
    quotient at type FloatingPoint; two strings give the type error, the
    empty string included. *)
Theorem divide_float_and_string (l r : Expr) (s : State) (out : list line)
  (s1 s2 : State) (o1 o2 : list line) :
  (forall a b : float,
     evaluates l s out (Ok (PyFloat a, FloatingPoint, s1)) o1 ->
     evaluates r s1 o1 (Ok (PyFloat b, FloatingPoint, s2)) o2 ->
     (PrimFloat.eqb b 0%float = true ->
        evaluates (Divide l r) s out (Raise InterpMathError) o2) /\
     (PrimFloat.eqb b 0%float = false ->
        evaluates (Divide l r) s out (Ok (PyFloat (a / b)%float, FloatingPoint, s2)) o2)) /\
  (forall a b : string,
     evaluates l s out (Ok (PyStr a, String, s1)) o1 ->
     evaluates r s1 o1 (Ok (PyStr b, String, s2)) o2 ->
     evaluates (Divide l r) s out (Raise InterpTypeError) o2).
Proof.
  split.
  - intros a b Hl Hr. split; intros Hz.
    + apply (proj1 (divide_same_type l r s out _ _ _ _ _ _ _ Hl Hr)). exact Hz.
    + replay2 Hl Hr. simpl. rewrite Hz. reflexivity.
  - intros a b Hl Hr.
    apply (proj1 (proj2 (divide_same_type l r s out _ _ _ _ _ _ _ Hl Hr)));
      [reflexivity | discriminate | discriminate].
Qed.

Lemma divide_float_and_string_witness :
  evaluates (Divide (FloatingPointLiteral 1) (FloatingPointLiteral (-0))) EmptyState []
    (Raise InterpMathError) [] /\
  evaluates (Divide (FloatingPointLiteral 1) (FloatingPointLiteral 4)) EmptyState []
    (Ok (PyFloat 0.25, FloatingPoint, EmptyState)) [] /\
  evaluates (Divide (StringLiteral "a") (StringLiteral "")) EmptyState []
    (Raise InterpTypeError) [].
Proof.
  pose proof (divide_float_and_string
                (FloatingPointLiteral 1) (FloatingPointLiteral (-0)) EmptyState []
                EmptyState EmptyState [] []) as [Hz _].
  pose proof (divide_float_and_string
                (FloatingPointLiteral 1) (FloatingPointLiteral 4) EmptyState []
                EmptyState EmptyState [] []) as [Hq _].
  pose proof (divide_float_and_string
                (StringLiteral "a") (StringLiteral "") EmptyState []
                EmptyState EmptyState [] []) as [_ Hs].
  split; [| split].
  - apply (Hz 1%float (-0)%float);
      try (exists 1%nat; (split; [reflexivity | discriminate])).
    reflexivity.
  - apply (Hq 1%float 4%float);
      try (exists 1%nat; (split; [reflexivity | discriminate])).
    reflexivity.
  - apply (Hs "a" ""); exists 1%nat; (split; [reflexivity | discriminate]).
Defined.

(** ** Relational nodes *)

Lemma String_leb_ltb (x y : string) : String.leb y x = negb (String.ltb x y).
Proof.
  unfold String.leb, String.ltb. rewrite (String.compare_antisym x y).
  now destruct (String.compare y x).
Qed.

Lemma String_ltb_leb (x y : string) : String.ltb y x = negb (String.leb x y).
Proof.
  unfold String.leb, String.ltb. rewrite (String.compare_antisym x y).
  now destruct (String.compare y x).
Qed.

(** X21. The six comparisons go by pairs: on two operands of one type,
    values of the class of that type, [!=] returns the negation of [==];
    and when that type is not FloatingPoint, [>=] returns the negation of
    [<] and [>] the negation of [<=], Unit operands included. *)
Theorem comparisons_are_dual (l r : Expr) (s : State) (out : list line)
  (vl vr : pyvalue) (t : Type_) (s1 s2 : State) (o1 o2 : list line) :
  evaluates l s out (Ok (vl, t, s1)) o1 ->
  evaluates r s1 o1 (Ok (vr, t, s2)) o2 ->
  well_tagged vl t -> well_tagged vr t ->
  (exists b,
     evaluates (Eq l r) s out (Ok (PyBool b, Boolean, s2)) o2 /\
     evaluates (Ne l r) s out (Ok (PyBool (negb b), Boolean, s2)) o2) /\
  (t <> FloatingPoint ->
   exists b1 b2,
     evaluates (Lt l r) s out (Ok (PyBool b1, Boolean, s2)) o2 /\
     evaluates (Gte l r) s out (Ok (PyBool (negb b1), Boolean, s2)) o2 /\
     evaluates (Lte l r) s out (Ok (PyBool b2, Boolean, s2)) o2 /\
     evaluates (Gt l r) s out (Ok (PyBool (negb b2), Boolean, s2)) o2).
Proof.
  intros Hl Hr Tl Tr. split.
  - destruct t, vl; simpl in Tl; try contradiction;
      destruct vr; simpl in Tr; try contradiction.
    + exists true. split; replay2 Hl Hr; reflexivity.
    + exists (z =? z0). split; replay2 Hl Hr; reflexivity.
    + exists (PrimFloat.eqb f f0). split; replay2 Hl Hr; reflexivity.
    + exists (String.eqb s0 s3). split; replay2 Hl Hr; reflexivity.
    + exists (Bool.eqb b b0). split; replay2 Hl Hr; reflexivity.
  - intros Hf.
    destruct t, vl; simpl in Tl; try contradiction;
      destruct vr; simpl in Tr; try contradiction.
    + exists false, true. repeat apply conj; replay2 Hl Hr; reflexivity.
    + exists (z <? z0), (z <=? z0).
      repeat apply conj; replay2 Hl Hr; simpl;
        rewrite ?(Z.leb_antisym z z0), ?(Z.ltb_antisym z z0); reflexivity.
    + exists (String.ltb s0 s3), (String.leb s0 s3).
      repeat apply conj; replay2 Hl Hr; simpl;
        rewrite ?(String_leb_ltb s0 s3), ?(String_ltb_leb s0 s3); reflexivity.
    + exists (negb b && b0)%bool, (implb b b0).
      repeat apply conj; replay2 Hl Hr; simpl; now destruct b, b0.
Qed.

Lemma comparisons_are_dual_witness :
  (exists b,
     evaluates (Eq (IntLiteral 1) (IntLiteral 2)) EmptyState []
       (Ok (PyBool b, Boolean, EmptyState)) [] /\
     evaluates (Ne (IntLiteral 1) (IntLiteral 2)) EmptyState []
       (Ok (PyBool (negb b), Boolean, EmptyState)) []) /\
  (exists b1 b2,
     evaluates (Lt (IntLiteral 1) (IntLiteral 2)) EmptyState []
       (Ok (PyBool b1, Boolean, EmptyState)) [] /\
     evaluates (Gte (IntLiteral 1) (IntLiteral 2)) EmptyState []
       (Ok (PyBool (negb b1), Boolean, EmptyState)) [] /\
     evaluates (Lte (IntLiteral 1) (IntLiteral 2)) EmptyState []
       (Ok (PyBool b2, Boolean, EmptyState)) [] /\
     evaluates (Gt (IntLiteral 1) (IntLiteral 2)) EmptyState []
       (Ok (PyBool (negb b2), Boolean, EmptyState)) []).
Proof.
  destruct (comparisons_are_dual (IntLiteral 1) (IntLiteral 2) EmptyState []
              (PyInt 1) (PyInt 2) Integer EmptyState EmptyState [] []
              (evaluates_intro 1 (IntLiteral 1) EmptyState []
                 (PyInt 1, Integer, EmptyState) [] eq_refl)
              (evaluates_intro 1 (IntLiteral 2) EmptyState []
                 (PyInt 2, Integer, EmptyState) [] eq_refl)
              I I) as [He Ho].
  split; [exact He |]. apply Ho. discriminate.
Defined.

(** ** Assignment and lookup together *)

(** X22. What is assigned is what is read: when [x := e] returns, the
    returned state binds [x] to the returned value and type, and a reference
    to [x] evaluated next returns that value and type and leaves that
    state. *)
Theorem assign_then_read (x : string) (e : Expr) (s : State) (out : list line)
  (v : pyvalue) (t : Type_) (s' : State) (o1 : list line) :
  evaluates (Assign x e) s out (Ok (v, t, s')) o1 ->
  get_value s' x = Some (v, t) /\
  evaluates (Sequence [Assign x e; Variable_ x]) s out (Ok (v, t, s')) o1.
Proof.
  intros Ha.
  assert (Hx : get_value s' x = Some (v, t)).
  { destruct Ha as [n [H _]]. destruct n as [| n]; [discriminate H |].
    simpl in H. unfold bind in H.
    destruct (evaluate n e s out) as [[[[v1 t1] s1] | e1] o1']; [| discriminate H].
    destruct (get_value s1 x) as [[v0 t0] |];
      [destruct (negb (Type_eqb t1 t0)); [discriminate H |] |];
      unfold ret in H; inversion H; subst; apply get_value_head. }
  split; [exact Hx |].
  destruct (evaluates_fuel _ _ _ _ _ Ha) as [n F].
  exists (S (S n)). split; [| discriminate].
  rewrite evaluate_Sequence.
  rewrite (for_exprs_cons _ _ _ _ _ _ _ (v, t, s') o1) by (apply F; lia).
  rewrite (for_exprs_cons _ _ _ _ _ _ _ (v, t, s') o1)
    by (now apply evaluate_Variable_bound).
  reflexivity.
Qed.

Lemma assign_then_read_witness :
  get_value (set_value EmptyState "x" (PyInt 3) Integer) "x" = Some (PyInt 3, Integer) /\
  evaluates (Sequence [Assign "x" (IntLiteral 3); Variable_ "x"]) EmptyState []
    (Ok (PyInt 3, Integer, set_value EmptyState "x" (PyInt 3) Integer)) [].
Proof.
  apply (assign_then_read "x" (IntLiteral 3) EmptyState [] (PyInt 3) Integer
           (set_value EmptyState "x" (PyInt 3) Integer) []).
  exists 2%nat. split; [reflexivity | discriminate].
Defined.

(** X23. Lookup is the first match from the head: [get_value] returns the
    value of the first frame of the chain that carries the name, and it
    returns nothing exactly when no frame carries the name. *)
Theorem lookup_is_first_match (s : State) (x : string) :
  get_value s x
  = option_map snd (find (fun frame => String.eqb x (fst frame)) (frames s)) /\
  (get_value s x = None <-> ~ In x (names s)).
Proof.
  induction s as [| name value next [IH1 IH2]]; simpl.
  - split; [reflexivity | tauto].
  - destruct (String.eqb_spec x name) as [E | NE]; simpl.
    + split; [reflexivity |]. split; [discriminate | intros H; contradict H; now left].
    + split; [exact IH1 |]. rewrite IH2. split.
      * intros H [H1 | H1]; [congruence | contradiction].
      * intros H H1. apply H. now right.
Qed.

Lemma lookup_is_first_match_witness :
  get_value (set_value (set_value EmptyState "x" (PyInt 1) Integer)
               "x" (PyInt 2) Integer) "x" = Some (PyInt 2, Integer) /\
  ~ In "y" (names (set_value EmptyState "x" (PyInt 1) Integer)).
Proof.
  split.
  - rewrite (proj1 (lookup_is_first_match
                      (set_value (set_value EmptyState "x" (PyInt 1) Integer)
                         "x" (PyInt 2) Integer) "x")).
    reflexivity.
  - apply (proj2 (lookup_is_first_match
                    (set_value EmptyState "x" (PyInt 1) Integer) "y")).
    reflexivity.
Defined.

Lemma copy_is_equal (s : State) : copy s = s.
Proof. destruct s as [| name [v t] next]; reflexivity. Qed.

(** ** Exceptions of the operand of the other nodes *)

(** X24. Exceptions go through the other nodes too: an exception of the
    value expression of an assignment, of the operand of [Not], and of the
    condition of an [If] or of a [While] is the outcome of the node; and so
    is an exception of the body of a loop whose condition is true. *)
Theorem operand_exception_goes_on (e a b : Expr) (x : string) (s : State)
  (out : list line) (err : abort) :
  (forall o1,
     evaluates e s out (Raise err) o1 ->
     evaluates (Assign x e) s out (Raise err) o1 /\
     evaluates (Not e) s out (Raise err) o1 /\
     evaluates (If e a b) s out (Raise err) o1 /\
     evaluates (While e b) s out (Raise err) o1) /\
  (forall vc s1 o1 o2,
     evaluates e s out (Ok (vc, Boolean, s1)) o1 ->
     truthy vc = true ->
     evaluates b s1 o1 (Raise err) o2 ->
     evaluates (While e b) s out (Raise err) o2).
Proof.
  split.
  - intros o1 [n [H N]].
    repeat apply conj; exists (S n); (split; [| exact N]);
      simpl; unfold bind; now rewrite H.
  - intros vc s1 o1 o2 Hc Ht [k [Hb N]].
    destruct (evaluates_fuel _ _ _ _ _ Hc) as [n1 F1].
    set (n := S (Nat.max n1 k)).
    exists (S n). split; [| exact N].
    rewrite (evaluate_While n e b s out vc s1 o1) by (apply F1; lia).
    unfold n at 2. cbn [while_loop]. rewrite Ht. unfold bind.
    rewrite (evaluate_mono k n ltac:(lia) _ _ _ _ _ Hb N). reflexivity.
Qed.

Lemma operand_exception_goes_on_witness :
  evaluates (Assign "x" (Variable_ "y")) EmptyState [] (Raise InterpSyntaxError) [] /\
  evaluates (While (BooleanLiteral true) (Variable_ "y")) EmptyState []
    (Raise InterpSyntaxError) [].
Proof.
  split.
  - apply (proj1 (operand_exception_goes_on (Variable_ "y") Ren Ren "x" EmptyState []
                    InterpSyntaxError) []).
    exists 1%nat. split; [reflexivity | discriminate].
  - apply (proj2 (operand_exception_goes_on (BooleanLiteral true) Ren (Variable_ "y")
                    "x" EmptyState [] InterpSyntaxError)
             (PyBool true) EmptyState [] []).
    + exists 1%nat. split; [reflexivity | discriminate].
    + reflexivity.
    + exists 1%nat. split; [reflexivity | discriminate].
Defined.

(** ** Which names an evaluation touches *)

(** X25. Only assignment targets are bound: when every [Assign] node of an
    expression has its target among the names [L], the names bound by the
    state that the evaluation returns are names of the state it was given or
    names of [L]; a program run, which starts from the empty state, binds
    names of [L] only. *)
Theorem only_targets_are_bound (L : list string) (e : Expr) :
  mentions (assigns_outside L) e = false ->
  (forall s out v t s' out',
     evaluates e s out (Ok (v, t, s')) out' ->
     forall y, In y (names s') -> In y (names s) \/ In y L) /\
  (forall fuel v t s' out',
     run_stimpl fuel e = (Ok (v, t, s'), out') ->
     forall y, In y (names s') -> In y L).
Proof.
  intros Hm.
  assert (G : forall n s out v t s' out',
             evaluate n e s out = (Ok (v, t, s'), out') ->
             forall y, In y (names s') -> In y (names s) \/ In y L).
  { intros n s out v t s' out' H.
    refine (evaluate_without (assigns_outside L)
              (fun s s' => forall y, In y (names s') -> In y (names s) \/ In y L)
              (fun _ => True) _ _ I I I _ _ _ n e s Hm out _ out' H).
    - intros s0 y Hy. now left.
    - intros s1 s2 s3 H12 H23 y Hy.
      destruct (H23 y Hy) as [H2 | HL]; [now apply H12 | now right].
    - intros x e0 s0 v0 t0 Hx y [<- | Hy]; [| now left].
      right. simpl in Hx. apply negb_false_iff in Hx.
      apply existsb_exists in Hx. destruct Hx as [z [Hz Ez]].
      apply String.eqb_eq in Ez. now subst.
    - intros; exact I.
    - intros; exact I. }
  split.
  - intros s out v t s' out' [n [H _]]. exact (G n s out v t s' out' H).
  - intros fuel v t s' out' H y Hy.
    destruct (G fuel EmptyState [] v t s' out' H y Hy) as [[] | HL]. exact HL.
Qed.

Lemma only_targets_are_bound_witness :
  In "x" (names (set_value EmptyState "x" (PyInt 1) Integer)) /\ In "x" ["x"].
Proof.
  assert (Hx : In "x" (names (set_value EmptyState "x" (PyInt 1) Integer)))
    by (simpl; now left).
  split; [exact Hx |].
  apply (proj2 (only_targets_are_bound ["x"]
                  (Program [Assign "x" (IntLiteral 1); Print (Variable_ "x")])
                  eq_refl)
           3%nat (PyInt 1) Integer
           (set_value EmptyState "x" (PyInt 1) Integer) [Formatted (PyInt 1)]
           eq_refl "x" Hx).
Defined.

(** X26. A variable that is not assigned is not changed: when no [Assign]
    node of an expression has the target [x], a lookup of [x] in the state
    that the evaluation returns gives what it gives in the state that the
    evaluation was given. *)
Theorem unassigned_variable_unchanged (x : string) (e : Expr) (s : State)
  (out : list line) (v : pyvalue) (t : Type_) (s' : State) (out' : list line) :
  mentions (assigns_to x) e = false ->
  evaluates e s out (Ok (v, t, s')) out' ->
  get_value s' x = get_value s x.
Proof.
  intros Hm [n [H _]].
  refine (evaluate_without (assigns_to x)
            (fun s s' => get_value s' x = get_value s x)
            (fun _ => True) _ _ I I I _ _ _ n e s Hm out _ out' H).
  - reflexivity.
  - intros s1 s2 s3 H12 H23. congruence.
  - intros y e0 s0 v0 t0 Hy. simpl in Hy. apply String.eqb_neq in Hy.
    apply get_value_tail. congruence.
  - intros; exact I.
  - intros; exact I.
Qed.

Lemma unassigned_variable_unchanged_witness :
  get_value (set_value (set_value EmptyState "x" (PyInt 1) Integer)
               "y" (PyInt 2) Integer) "x"
  = get_value (set_value EmptyState "x" (PyInt 1) Integer) "x".
Proof.
  apply (unassigned_variable_unchanged "x"
           (Assign "y" (Add (Variable_ "x") (IntLiteral 1)))
           (set_value EmptyState "x" (PyInt 1) Integer) []
           (PyInt 2) Integer _ []).
  - reflexivity.
  - exists 3%nat. split; [reflexivity | discriminate].
Defined.
